(** * EcoFlow: the API gateway's request orchestration, and the auth
    service's token endpoint

    A shallow embedding of [api-gateway/main.py] (token verification,
    health polling, create-project, get-dashboard) and of the [/verify]
    route of [auth-service/main.py]; further down, of the auth service's
    user table with [register], [login] and [get_user], of the route of
    [project-service/main.py] the gateway posts to, and of the
    recommendations of [carbon-service/main.py].

    The handlers are coroutines whose only suspension points are outbound
    HTTP calls.  Each handler is embedded as a function in a small monad
    [io] that threads the log of the calls issued so far (with the time
    each one was issued) and a clock, and that either returns a value or
    raises a Python exception.  The network is a parameter: it answers
    every call with a duration and either a response or a transport
    failure, so every theorem holds for all backends' behaviours. *)

From Stdlib Require Import String Ascii List ZArith NArith Bool Lia.
From Stdlib Require Import DecimalString SpecFloat.
Import ListNotations.
Local Open Scope string_scope.
Set Warnings "-register-all".

(* ================================================================== *)
(** ** Python values and built-ins used by the services *)
(* ================================================================== *)

Module Py.

(** What [response.json()] and a request body can hold. *)
Inductive json : Type :=
| JNull
| JBool (b : bool)
| JInt (n : Z)
| JFloat (f : spec_float)
| JStr (s : string)
| JArr (xs : list json)
| JObj (kvs : list (string * json)).

(** A [dict] with string keys: insertion-ordered, one entry per key. *)
Definition dict (V : Type) : Type := list (string * V).

Fixpoint dict_get {V} (k : string) (d : dict V) : option V :=
  match d with
  | [] => None
  | (k', v) :: rest => if String.eqb k k' then Some v else dict_get k rest
  end.

(** [d[k] = v]: an existing key keeps its place and takes the new value,
    a new key goes last. *)
Fixpoint dict_set {V} (k : string) (v : V) (d : dict V) : dict V :=
  match d with
  | [] => [(k, v)]
  | (k', v') :: rest =>
      if String.eqb k k' then (k, v) :: rest else (k', v') :: dict_set k v rest
  end.

(** A dict display [{**d, k: v, ...}]: the items are stored left to
    right into a fresh dict. *)
Definition dict_of_items {V} (items : list (string * V)) : dict V :=
  fold_left (fun acc kv => dict_set (fst kv) (snd kv) acc) items [].

Definition keys {V} (d : dict V) : list string := map fst d.

(** The exceptions the handlers can meet. *)
Inductive transport_error : Type :=
| ConnectError
| ConnectTimeout
| ReadTimeout
| OtherTransportError.

Inductive exn : Type :=
| HTTPException (status_code : Z) (detail : string)
| TransportError (e : transport_error)
| JSONDecodeError
| KeyError (key : string)
| TypeError.

(** [x[k]] on a value that came out of [response.json()]. *)
Definition subscript (x : json) (k : string) : json + exn :=
  match x with
  | JObj kvs =>
      match dict_get k kvs with
      | Some v => inl v
      | None => inr (KeyError k)
      end
  | _ => inr TypeError
  end.

Section Str.
(** [repr_other] stands for Python's text of floats, lists and dicts,
    which the services never inspect. *)
Variable repr_other : json -> string.

(** [str(x)], also what an f-string field [{x}] produces. *)
Definition str (x : json) : string :=
  match x with
  | JNull => "None"
  | JBool true => "True"
  | JBool false => "False"
  | JInt n => NilZero.string_of_int (Z.to_int n)
  | JStr s => s
  | _ => repr_other x
  end.
End Str.

(** [s.partition(sep)] for a one-character separator: the text before
    the first [sep] and, when there is one, the text after it. *)
Fixpoint partition (sep : ascii) (s : string) : string * option string :=
  match s with
  | EmptyString => (EmptyString, None)
  | String c rest =>
      if Ascii.eqb c sep then (EmptyString, Some rest)
      else let (a, b) := partition sep rest in (String c a, b)
  end.

Fixpoint split (sep : ascii) (s : string) : list string :=
  match s with
  | EmptyString => [EmptyString]
  | String c rest =>
      if Ascii.eqb c sep then EmptyString :: split sep rest
      else match split sep rest with
           | [] => [String c EmptyString]
           | w :: ws => String c w :: ws
           end
  end.

Definition lower_ascii (c : ascii) : ascii :=
  let n := nat_of_ascii c in
  if andb (Nat.leb 65 n) (Nat.leb n 90) then ascii_of_nat (n + 32) else c.

Fixpoint lower (s : string) : string :=
  match s with
  | EmptyString => EmptyString
  | String c rest => String (lower_ascii c) (lower rest)
  end.

(** [s.removeprefix(p)] when [s] starts with [p]. *)
Fixpoint strip_prefix (p s : string) : option string :=
  match p, s with
  | EmptyString, _ => Some s
  | String a p', String b s' => if Ascii.eqb a b then strip_prefix p' s' else None
  | String _ _, EmptyString => None
  end.

End Py.

Import Py.

(* ================================================================== *)
(** ** Outbound HTTP calls (httpx) *)
(* ================================================================== *)

Module Http.

Inductive http_method : Type := GET | POST.

(** A call as handed to [httpx.AsyncClient]: [json=] and [headers=] as
    the caller gave them. *)
Record request : Type := mkRequest {
  req_method : http_method;
  req_url : string;
  req_json : option json;
  req_headers : dict string
}.

(** A response: its status and what [response.json()] gives, [None]
    when the body is not JSON (the call raises). *)
Record response : Type := mkResponse {
  status_code : Z;
  body_json : option json
}.

Inductive outcome : Type :=
| Responded (r : response)
| Failed (e : transport_error).

(** The calls issued so far, each with the time it was issued at
    (milliseconds). *)
Definition log : Type := list (N * request).

Record world : Type := mkWorld {
  now : N;
  sent : log
}.

(** The network and the backends behind it: given the calls issued
    before, how long this call takes and how it ends. *)
Definition network : Type := log -> request -> N * outcome.

(** Handlers: run from a world, end in a value or an exception. *)
Definition io (A : Type) : Type := world -> (A + exn) * world.

Definition ret {A} (a : A) : io A := fun w => (inl a, w).

Definition raise {A} (e : exn) : io A := fun w => (inr e, w).

Definition bind {A B} (m : io A) (k : A -> io B) : io B :=
  fun w =>
    match m w with
    | (inl a, w') => k a w'
    | (inr e, w') => (inr e, w')
    end.

(** [try: body / except: handler] with a bare [except], which catches
    whatever the body raised. *)
Definition try_except {A} (body : io A) (handler : exn -> io A) : io A :=
  fun w =>
    match body w with
    | (inl a, w') => (inl a, w')
    | (inr e, w') => handler e w'
    end.

Definition lift {A} (r : A + exn) : io A := fun w => (r, w).

(** [await client.request(...)]: the call is logged as it is handed to
    the client, and the coroutine resumes when the call has ended, with
    its response or with the transport's exception. *)
Definition call (net : network) (rq : request) : io response :=
  fun w =>
    let d := fst (net (sent w) rq) in
    let w' := mkWorld (now w + d) (sent w ++ [(now w, rq)])%list in
    match snd (net (sent w) rq) with
    | Responded r => (inl r, w')
    | Failed e => (inr (TransportError e), w')
    end.

(** [response.json()] *)
Definition json_of (r : response) : io json :=
  match body_json r with
  | Some v => ret v
  | None => raise JSONDecodeError
  end.

End Http.

Import Http.

Declare Scope io_scope.
Delimit Scope io_scope with io.
Notation "x <- m ;; k" := (bind m (fun x => k))
  (at level 61, m at next level, right associativity) : io_scope.
Local Open Scope io_scope.

(* ================================================================== *)
(** ** The web framework's part (FastAPI) *)
(* ================================================================== *)

Module FastAPI.

Record HTTPAuthorizationCredentials : Type := mkCredentials {
  scheme : string;
  credentials : string
}.

Definition is_empty (s : string) : bool :=
  match s with EmptyString => true | _ => false end.

(** The [Authorization] header split at its first blank. *)
Definition get_authorization_scheme_param (authorization : option string)
  : string * string :=
  match authorization with
  | None => ("", "")
  | Some v =>
      if is_empty v then ("", "")
      else let (sch, param) := partition " " v in
           (sch, match param with Some p => p | None => "" end)
  end.

Section Security.
(** The status [HTTPBearer] rejects a request with: 403 in the
    framework's older releases, 401 in its newer ones.  The details are
    those of the older releases; nothing below depends on them. *)
Variable not_authenticated_status : Z.

(** [security = HTTPBearer()], called on the inbound request's
    [Authorization] header.  It reads the header and nothing else. *)
Definition HTTPBearer (authorization : option string)
  : HTTPAuthorizationCredentials + exn :=
  let (sch, cred) := get_authorization_scheme_param authorization in
  if is_empty sch || is_empty cred then
    inr (HTTPException not_authenticated_status "Not authenticated")
  else if negb (String.eqb (lower sch) "bearer") then
    inr (HTTPException not_authenticated_status
           "Invalid authentication credentials")
  else inl (mkCredentials sch cred).
End Security.

(** What the client of a service receives. [reply_json] is [None] for
    the plain-text body of an unhandled exception. *)
Record reply : Type := mkReply {
  reply_status : Z;
  reply_json : option json
}.

(** The framework's response layer: a returned value is sent with 200,
    an [HTTPException] with its own status, anything else as 500. *)
Definition respond (r : json + exn) : reply :=
  match r with
  | inl v => mkReply 200 (Some v)
  | inr (HTTPException s d) => mkReply s (Some (JObj [("detail", JStr d)]))
  | inr _ => mkReply 500 None
  end.

End FastAPI.

Import FastAPI.

(* ================================================================== *)
(** ** api-gateway/main.py *)
(* ================================================================== *)

Module Gateway.

Section Gateway.
(** [os.environ] when the process starts. *)
Variable environ : string -> option string.
Variable repr_other : json -> string.
Variable not_authenticated_status : Z.
Variable net : network.

Definition getenv (key default : string) : string :=
  match environ key with
  | Some v => v
  | None => default
  end.

Definition SERVICES : dict string :=
  [ ("auth", getenv "AUTH_SERVICE_URL" "http://auth-service:8001");
    ("projects", getenv "PROJECT_SERVICE_URL" "http://project-service:8002");
    ("carbon", getenv "CARBON_SERVICE_URL" "http://carbon-service:8003");
    ("monitoring", getenv "MONITORING_SERVICE_URL" "http://monitoring-service:8004") ].

(** [SERVICES[name]] *)
Definition service (name : string) : io string :=
  match dict_get name SERVICES with
  | Some url => ret url
  | None => raise (KeyError name)
  end.

Definition client_get (url : string) : io response :=
  call net (mkRequest GET url None []).

Definition client_post (url : string) (body : option json)
                       (headers : dict string) : io response :=
  call net (mkRequest POST url body headers).

Definition verify_token (creds : HTTPAuthorizationCredentials) : io json :=
  try_except
    (auth <- service "auth" ;;
     response <- client_post (auth ++ "/verify") None
                   [("Authorization", "Bearer " ++ credentials creds)] ;;
     if negb (status_code response =? 200)%Z then
       raise (HTTPException 401 "Invalid token")
     else json_of response)
    (fun _ => raise (HTTPException 503 "Auth service unavailable")).

(** The body of the loop of [health_check], for one registry item. *)
Definition probe (health_status : dict string) (item : string * string)
  : io (dict string) :=
  let (service_name, url) := item in
  try_except
    (response <- client_get (url ++ "/health") ;;
     ret (dict_set service_name
            (if (status_code response =? 200)%Z then "healthy" else "unhealthy")
            health_status))
    (fun _ => ret (dict_set service_name "unreachable" health_status)).

Fixpoint probe_all (items : list (string * string))
                   (health_status : dict string) : io (dict string) :=
  match items with
  | [] => ret health_status
  | item :: rest =>
      health_status' <- probe health_status item ;;
      probe_all rest health_status'
  end.

Definition health_check : io (dict string) :=
  probe_all SERVICES [("gateway", "healthy")].

Definition create_project (project_data : dict json) (user_data : json)
  : io json :=
  projects <- service "projects" ;;
  created_by <- lift (subscript user_data "user_id") ;;
  x_user_id <- lift (subscript user_data "user_id") ;;
  response <- client_post (projects ++ "/projects")
                (Some (JObj (dict_of_items
                               (project_data ++ [("created_by", created_by)])%list)))
                [("X-User-Id", str repr_other x_user_id)] ;;
  json_of response.

Definition get_dashboard (user_data : json) : io json :=
  projects <- service "projects" ;;
  user_id <- lift (subscript user_data "user_id") ;;
  projects_response <-
    client_get (projects ++ "/projects/user/" ++ str repr_other user_id) ;;
  carbon <- service "carbon" ;;
  user_id' <- lift (subscript user_data "user_id") ;;
  carbon_response <-
    client_get (carbon ++ "/footprint/" ++ str repr_other user_id') ;;
  projects_json <- json_of projects_response ;;
  carbon_json <- json_of carbon_response ;;
  ret (JObj [("projects", projects_json); ("carbon_footprint", carbon_json)]).

(** [GET /] *)
Definition root : json :=
  JObj [("message", JStr "Welcome to EcoFlow API");
        ("version", JStr "1.0.0");
        ("services", JArr (map JStr (keys SERVICES)))].

(** [Depends(verify_token)], itself depending on [security]: the
    framework runs [security] on the inbound request, then
    [verify_token], and only then the endpoint. *)
Definition depends_verify_token (authorization : option string) : io json :=
  creds <- lift (HTTPBearer not_authenticated_status authorization) ;;
  verify_token creds.

(** [POST /api/projects] with a JSON object as its body. *)
Definition post_api_projects (authorization : option string)
                             (project_data : dict json) : io json :=
  user_data <- depends_verify_token authorization ;;
  create_project project_data user_data.

(** [GET /api/dashboard] *)
Definition get_api_dashboard (authorization : option string) : io json :=
  user_data <- depends_verify_token authorization ;;
  get_dashboard user_data.

End Gateway.

End Gateway.

(* ================================================================== *)
(** ** auth-service/main.py: the [/verify] and [/health] routes *)
(* ================================================================== *)

Module AuthService.

(** How [jwt.decode] ends. *)
Inductive decoded : Type :=
| Payload (payload : dict json)
| ExpiredSignatureError
| InvalidTokenError.

Section AuthService.
(** [jwt.decode(token, SECRET_KEY, algorithms=[ALGORITHM])] *)
Variable jwt_decode : string -> decoded.
(** The framework's 422 body for a required parameter that is absent,
    and the percent-decoding of a query string's parts. *)
Variable missing_parameter : string -> json.
Variable unquote : string -> string.

Definition verify_token (token : string) : json + exn :=
  match jwt_decode token with
  | Payload payload =>
      match dict_get "user_id" payload with
      | None => inr (KeyError "user_id")
      | Some user_id =>
          match dict_get "sub" payload with
          | None => inr (KeyError "sub")
          | Some sub => inl (JObj [("user_id", user_id); ("email", sub)])
          end
      end
  | ExpiredSignatureError => inr (HTTPException 401 "Token expired")
  | InvalidTokenError => inr (HTTPException 401 "Invalid token")
  end.

Definition health : json :=
  JObj [("status", JStr "healthy"); ("service", JStr "auth-service")].

(** The query string's parameters; of a repeated name the last value
    is the one a handler sees. *)
Definition query_params (query : option string) : dict string :=
  match query with
  | None => []
  | Some q =>
      dict_of_items
        (map (fun part =>
                let (k, v) := partition "=" part in
                (unquote k, unquote (match v with Some x => x | None => "" end)))
             (filter (fun part => negb (is_empty part)) (split "&" q)))
  end.

(** [@app.post("/verify") async def verify_token(token: str)]: a
    parameter of type [str] that is not part of the path is a required
    query parameter.  The route reads nothing else of the request. *)
Definition post_verify (query : option string) : reply :=
  match dict_get "token" (query_params query) with
  | None => mkReply 422 (Some (missing_parameter "token"))
  | Some token => respond (verify_token token)
  end.

(** The two routes that do not need the user table, by method and
    request target (path and query). *)
Definition app (m : http_method) (target : string) : option reply :=
  let (path, query) := partition "?" target in
  match m with
  | POST => if String.eqb path "/verify" then Some (post_verify query) else None
  | GET => if String.eqb path "/health" then Some (mkReply 200 (Some health)) else None
  end.

End AuthService.

End AuthService.

(* ================================================================== *)
(** ** The gateway in front of this repository's auth service *)
(* ================================================================== *)

Section Deployment.
Variable environ : string -> option string.
Variable jwt_decode : string -> AuthService.decoded.
Variable missing_parameter : string -> json.
Variable unquote : string -> string.
(** The transport's delays, the other backends, and the auth routes
    not modelled here. *)
Variable others : network.

(** The auth service answers at the address the gateway is configured
    with. *)
Definition deployed : network :=
  fun history rq =>
    match strip_prefix
            (Gateway.getenv environ "AUTH_SERVICE_URL" "http://auth-service:8001")
            (req_url rq) with
    | Some target =>
        match AuthService.app jwt_decode missing_parameter unquote
                (req_method rq) target with
        | Some r =>
            (fst (others history rq),
             Responded (mkResponse (reply_status r) (reply_json r)))
        | None => others history rq
        end
    | None => others history rq
    end.
End Deployment.

(* ================================================================== *)
(** ** The vocabulary of the properties *)
(* ================================================================== *)

(** The health classification of one probe's outcome. *)
Definition classify (o : outcome) : string :=
  match o with
  | Responded r => if (status_code r =? 200)%Z then "healthy" else "unhealthy"
  | Failed _ => "unreachable"
  end.

Definition health_request (url : string) : request :=
  mkRequest GET (url ++ "/health") None [].

(** [calls] were issued one after another from time [t] on, after
    [history]: each call is issued at the time the one before it ended,
    and the last one ends at [t_end]. *)
Fixpoint issued_serially (net : network) (history : log) (t : N)
                         (calls : log) (t_end : N) : Prop :=
  match calls with
  | [] => t_end = t
  | (t_issue, rq) :: rest =>
      t_issue = t /\
      issued_serially net (history ++ [(t_issue, rq)])%list
                      (t + fst (net history rq))%N rest t_end
  end.

(** All of [calls] were issued at the same time [t]. *)
Definition issued_together (t : N) (calls : log) : Prop :=
  Forall (fun c => fst c = t) calls.

(** The time the calls [calls], issued one after another after
    [history], take in all. *)
Fixpoint elapsed (net : network) (history : log) (calls : log) : N :=
  match calls with
  | [] => 0
  | (t_issue, rq) :: rest =>
      fst (net history rq) + elapsed net (history ++ [(t_issue, rq)])%list rest
  end.

(** [httpx.AsyncClient(timeout=5.0)] of the health check, in
    milliseconds. *)
Definition health_timeout_ms : N := 5000.

(** Concrete surroundings: no variable set in the environment, a fresh
    request, and a network on which every call hangs until the timeout. *)
Definition no_environ : string -> option string := fun _ => None.

Definition idle : world := mkWorld 0 [].

Definition all_hang : network :=
  fun _ _ => (health_timeout_ms, Failed ReadTimeout).

(** The calls the handlers issue, as the backends see them. *)
Definition verify_request (environ : string -> option string)
                          (token : string) : request :=
  mkRequest POST
    (Gateway.getenv environ "AUTH_SERVICE_URL" "http://auth-service:8001"
       ++ "/verify")
    None [("Authorization", "Bearer " ++ token)].

Definition create_request (environ : string -> option string)
                          (repr_other : json -> string)
                          (project_data : dict json) (u : json) : request :=
  mkRequest POST
    (Gateway.getenv environ "PROJECT_SERVICE_URL" "http://project-service:8002"
       ++ "/projects")
    (Some (JObj (dict_of_items (project_data ++ [("created_by", u)])%list)))
    [("X-User-Id", str repr_other u)].

Definition projects_request (environ : string -> option string)
                            (repr_other : json -> string) (u : json) : request :=
  mkRequest GET
    (Gateway.getenv environ "PROJECT_SERVICE_URL" "http://project-service:8002"
       ++ "/projects/user/" ++ str repr_other u)
    None [].

Definition carbon_request (environ : string -> option string)
                          (repr_other : json -> string) (u : json) : request :=
  mkRequest GET
    (Gateway.getenv environ "CARBON_SERVICE_URL" "http://carbon-service:8003"
       ++ "/footprint/" ++ str repr_other u)
    None [].

(** The world after one call [rq] issued from [w]. *)
Definition after (net : network) (w : world) (rq : request) : world :=
  mkWorld (now w + fst (net (sent w) rq)) (sent w ++ [(now w, rq)])%list.

Definition auth_unavailable : exn :=
  HTTPException 503 "Auth service unavailable".

Definition no_repr : json -> string := fun _ => "".

Definition identity_42 : json :=
  JObj [("user_id", JInt 42); ("email", JStr "ada@example.org")].

Definition ok (v : json) : N * outcome := (10%N, Responded (mkResponse 200 (Some v))).

(** The auth backend rejects the token with 401. *)
Definition auth_rejects : network :=
  fun _ _ =>
    (10%N, Responded (mkResponse 401 (Some (JObj [("detail", JStr "Invalid token")])))).

(** The auth backend answers 200 with an object that has no [user_id]. *)
Definition auth_says_empty : network := fun _ _ => ok (JObj []).

(** What FastAPI answers when a required query parameter is absent,
    here the [x_user_id] that project-service's [POST /projects] asks
    for, and what it answers for a path it has no route for. *)
Definition missing_x_user_id : json :=
  JObj [("detail",
         JArr [JObj [("loc", JArr [JStr "query"; JStr "x_user_id"]);
                     ("msg", JStr "field required");
                     ("type", JStr "value_error.missing")]])].

Definition not_found : json := JObj [("detail", JStr "Not Found")].

(** The projects backend answers a POST with 422 and a GET with 404,
    each with its JSON error body; every other backend answers 200. *)
Definition projects_failing : network :=
  fun _ rq =>
    if String.prefix "http://project-service:8002" (req_url rq) then
      match req_method rq with
      | POST => (10%N, Responded (mkResponse 422 (Some missing_x_user_id)))
      | GET => (10%N, Responded (mkResponse 404 (Some not_found)))
      end
    else ok (JObj [("total", JInt 7)]).

(** Auth answers 200, projects answers 500, carbon times out after 5 s
    and monitoring refuses the connection. *)
Definition mixed_health : network :=
  fun _ rq =>
    if String.eqb (req_url rq) "http://auth-service:8001/health" then
      ok (JObj [("status", JStr "healthy"); ("service", JStr "auth-service")])
    else if String.eqb (req_url rq) "http://project-service:8002/health" then
      (20%N, Responded (mkResponse 500 None))
    else if String.eqb (req_url rq) "http://carbon-service:8003/health" then
      (health_timeout_ms, Failed ReadTimeout)
    else (1%N, Failed ConnectError).

(** A call without an [Authorization] header. *)
Definition carries_no_credential (rq : request) : Prop :=
  dict_get "Authorization" (req_headers rq) = None.

Definition is_2xx (status : Z) : bool :=
  ((200 <=? status) && (status <=? 299))%Z.

(* ================================================================== *)
(** ** auth-service/main.py: the user table and its routes *)
(* ================================================================== *)

Module Accounts.

(** A row of the table [users].  The two columns an insert leaves out
    hold what the database layer stores for them, possibly NULL. *)
Record user_row : Type := mkUserRow {
  id : Z;
  email : string;
  username : string;
  hashed_password : string;
  organization : option string;
  created_at : option Z;
  is_active : option bool
}.

(** The table, in insertion order. *)
Definition table : Type := list user_row.

Record UserCreate : Type := mkUserCreate {
  new_email : string;
  new_username : string;
  new_password : string;
  new_organization : option string
}.

Record UserLogin : Type := mkUserLogin {
  login_email : string;
  login_password : string
}.

(** What the surroundings supply to one request: the salt the password
    hash draws, the clock read when the token is made (microseconds),
    and the values stored for the columns [created_at] and [is_active]
    of a new row. *)
Record ambient : Type := mkAmbient {
  salt : string;
  utcnow : Z;
  created_at_default : option Z;
  is_active_default : option bool
}.

(** A value of the dict handed to [jwt.encode]: JSON, or a [datetime]. *)
Inductive claim : Type :=
| CJson (v : json)
| CDatetime (microseconds : Z).

(** How a handler can fail: an [HTTPException], or the table's unique
    index on [email] refusing an insert. *)
Inductive error : Type :=
| Http (status_code : Z) (detail : string)
| IntegrityError.

Definition reply_of (r : json + error) : reply :=
  match r with
  | inl v => respond (inl v)
  | inr (Http s d) => respond (inr (HTTPException s d))
  | inr IntegrityError => mkReply 500 None
  end.

Definition ACCESS_TOKEN_EXPIRE_MINUTES : Z := 30.

(** [timedelta(minutes=m)], in microseconds. *)
Definition minutes (m : Z) : Z := (m * 60 * 1000000)%Z.

(** [fetch_one] of [users.select().where(users.c.email == e)] *)
Definition fetch_by_email (e : string) (db : table) : option user_row :=
  find (fun u => String.eqb (email u) e) db.

(** [fetch_one] of [users.select().where(users.c.id == i)] *)
Definition fetch_by_id (i : Z) (db : table) : option user_row :=
  find (fun u => Z.eqb (id u) i) db.

(** The key SQLite gives a new row of a table with an integer primary
    key: one more than the largest key in use, 1 in an empty table. *)
Definition next_id (db : table) : Z :=
  (1 + fold_right (fun u m => Z.max (id u) m) 0 db)%Z.

(** [database.execute(users.insert().values(...))]: the new row's key
    and the table with the row, unless the email is taken. *)
Definition insert (e name hashed : string) (org : option string)
                  (amb : ambient) (db : table) : option (Z * table) :=
  if existsb (fun u => String.eqb (email u) e) db then None
  else
    let i := next_id db in
    Some (i, (db ++ [mkUserRow i e name hashed org (created_at_default amb)
                       (is_active_default amb)])%list).

Section Accounts.
(** [pwd_context.hash] with the salt it draws, [pwd_context.verify],
    [jwt.encode(_, SECRET_KEY, algorithm=ALGORITHM)], and the JSON text
    of a [datetime]. *)
Variable pwd_hash : string -> string -> string.
Variable pwd_verify : string -> string -> bool.
Variable jwt_encode : dict claim -> string.
Variable isoformat : Z -> string.

Definition verify_password (plain_password hashed : string) : bool :=
  pwd_verify plain_password hashed.

Definition get_password_hash (amb : ambient) (password : string) : string :=
  pwd_hash (salt amb) password.

(** [expires_delta] is tested for truth: [None] and a zero [timedelta]
    both take the default lifetime. *)
Definition create_access_token (data : dict claim)
                               (expires_delta : option Z) (now : Z) : string :=
  let expire :=
    match expires_delta with
    | Some delta =>
        if (delta =? 0)%Z then (now + minutes ACCESS_TOKEN_EXPIRE_MINUTES)%Z
        else (now + delta)%Z
    | None => (now + minutes ACCESS_TOKEN_EXPIRE_MINUTES)%Z
    end in
  jwt_encode (dict_set "exp" (CDatetime expire) data).

(** The dict [register] and [login] have encoded. *)
Definition token_data (e : string) (i : Z) : dict claim :=
  [("sub", CJson (JStr e)); ("user_id", CJson (JInt i))].

Definition token_reply (access_token : string) (i : Z) : json :=
  JObj [("access_token", JStr access_token);
        ("token_type", JStr "bearer");
        ("user_id", JInt i)].

Definition register (user : UserCreate) (amb : ambient) (db : table)
  : (json + error) * table :=
  match fetch_by_email (new_email user) db with
  | Some _ => (inr (Http 400 "Email already registered"), db)
  | None =>
      let hashed := get_password_hash amb (new_password user) in
      match insert (new_email user) (new_username user) hashed
                   (new_organization user) amb db with
      | None => (inr IntegrityError, db)
      | Some (user_id, db') =>
          let access_token :=
            create_access_token (token_data (new_email user) user_id) None
              (utcnow amb) in
          (inl (token_reply access_token user_id), db')
      end
  end.

Definition login (credentials : UserLogin) (now : Z) (db : table)
  : json + error :=
  match fetch_by_email (login_email credentials) db with
  | None => inr (Http 401 "Invalid credentials")
  | Some user =>
      if negb (verify_password (login_password credentials)
                 (hashed_password user)) then
        inr (Http 401 "Invalid credentials")
      else
        match is_active user with
        | Some true =>
            let access_token :=
              create_access_token (token_data (email user) (id user)) None now in
            inl (token_reply access_token (id user))
        | _ => inr (Http 400 "Inactive user")
        end
  end.

Definition get_user (user_id : Z) (db : table) : json + error :=
  match fetch_by_id user_id db with
  | None => inr (Http 404 "User not found")
  | Some user =>
      inl (JObj [("id", JInt (id user));
                 ("email", JStr (email user));
                 ("username", JStr (username user));
                 ("organization",
                  match organization user with
                  | Some o => JStr o
                  | None => JNull
                  end);
                 ("created_at",
                  match created_at user with
                  | Some t => JStr (isoformat t)
                  | None => JNull
                  end)])
  end.

End Accounts.

(** The tables a sequence of registrations can build from the empty
    one. *)
Inductive reachable (pwd_hash : string -> string -> string)
                    (jwt_encode : dict claim -> string) : table -> Prop :=
| reachable_empty : reachable pwd_hash jwt_encode []
| reachable_register user amb db :
    reachable pwd_hash jwt_encode db ->
    reachable pwd_hash jwt_encode
      (snd (register pwd_hash jwt_encode user amb db)).

(** Emails and keys are each used by one row only. *)
Definition well_formed (db : table) : Prop :=
  NoDup (map email db) /\ NoDup (map id db).

(** What [jwt.decode] returns for an encoded dict: the JSON claims as
    they were, a [datetime] as its whole seconds. *)
Definition decoded_claim (c : claim) : json :=
  match c with
  | CJson v => v
  | CDatetime t => JInt (t / 1000000)%Z
  end.

Definition decoded_claims (data : dict claim) : dict json :=
  map (fun kv => (fst kv, decoded_claim (snd kv))) data.

(** Concrete surroundings: the hash that is the password itself, and
    one registration into the empty table. *)
Definition plain_hash : string -> string -> string := fun _ password => password.

Definition plain_verify : string -> string -> bool := String.eqb.

Definition one_token : dict claim -> string := fun _ => "token-1".

Definition ada : UserCreate :=
  mkUserCreate "ada@example.org" "ada" "s3cret" (Some "Analytical Engines").

Definition noon : ambient :=
  mkAmbient "salt" 1700000000000000 (Some 1700000000000000%Z) (Some true).

End Accounts.

(* ================================================================== *)
(** ** project-service/main.py: the route the gateway posts to *)
(* ================================================================== *)

Module ProjectService.

Section ProjectService.
(** The validated body ([ProjectCreate]) and pydantic's reading of a
    request body: the model, or the error entries. *)
Variable ProjectCreate : Type.
Variable validate : option json -> ProjectCreate + list json.
(** Pydantic's reading of an [int] parameter's text, the framework's
    error entry for a parameter (kind and location), and the
    percent-decoding of a query string's parts. *)
Variable int_of_text : string -> option Z.
Variable error_entry : string -> list string -> json.
Variable unquote : string -> string.
(** The body of [create_project], with its database. *)
Variable create_project : ProjectCreate -> Z -> reply.

Definition unprocessable (errors : list json) : reply :=
  mkReply 422 (Some (JObj [("detail", JArr errors)])).

(** [x_user_id: int = Query(...)]: a required query parameter. *)
Definition x_user_id (query : option string) : Z + list json :=
  match dict_get "x_user_id" (AuthService.query_params unquote query) with
  | None => inr [error_entry "missing" ["query"; "x_user_id"]]
  | Some text =>
      match int_of_text text with
      | Some n => inl n
      | None => inr [error_entry "int" ["query"; "x_user_id"]]
      end
  end.

(** [@app.post("/projects")]: the handler runs when the query and the
    body are both valid; otherwise the errors of both are answered
    with 422, the query's first. *)
Definition post_projects (query : option string) (body : option json) : reply :=
  match x_user_id query, validate body with
  | inl n, inl project => create_project project n
  | inl _, inr body_errors => unprocessable body_errors
  | inr query_errors, inl _ => unprocessable query_errors
  | inr query_errors, inr body_errors =>
      unprocessable (query_errors ++ body_errors)%list
  end.

Definition health : json :=
  JObj [("status", JStr "healthy"); ("service", JStr "project-service")].

(** The two routes modelled, by method, request target and body. *)
Definition app (m : http_method) (target : string) (body : option json)
  : option reply :=
  let (path, query) := partition "?" target in
  match m with
  | POST =>
      if String.eqb path "/projects" then Some (post_projects query body)
      else None
  | GET =>
      if String.eqb path "/health" then Some (mkReply 200 (Some health))
      else None
  end.

(** The project service answers at the address the gateway is
    configured with; [others] stands for the rest of the network. *)
Definition deployed (environ : string -> option string) (others : network)
  : network :=
  fun history rq =>
    match strip_prefix
            (Gateway.getenv environ "PROJECT_SERVICE_URL"
               "http://project-service:8002")
            (req_url rq) with
    | Some target =>
        match app (req_method rq) target (req_json rq) with
        | Some r =>
            (fst (others history rq),
             Responded (mkResponse (reply_status r) (reply_json r)))
        | None => others history rq
        end
    | None => others history rq
    end.

End ProjectService.

End ProjectService.

(* ================================================================== *)
(** ** carbon-service/main.py: the recommendations *)
(* ================================================================== *)

Module CarbonService.

(** A row of the query of [get_recommendations]: a category (NULL for
    the records that have none), the sum of its emissions and the number
    of its records.  The loop reads the category only. *)
Record category_row : Type := mkCategoryRow {
  category : option string;
  emissions : option spec_float;
  records : Z
}.

Definition category_is (name : string) (row : category_row) : bool :=
  match category row with
  | Some c => String.eqb c name
  | None => false
  end.

(** What one turn of the loop appends to [recommendations]. *)
Definition recommendation (row : category_row) : list json :=
  if category_is "transport" row then
    [JObj [("category", JStr "transport");
           ("suggestion",
            JStr "Используйте общественный транспорт или велосипед 2 раза в неделю");
           ("potential_reduction", JInt 50);
           ("priority", JStr "high")]]
  else if category_is "energy" row then
    [JObj [("category", JStr "energy");
           ("suggestion", JStr "Замените лампы на светодиодные");
           ("potential_reduction", JInt 20);
           ("priority", JStr "medium")]]
  else if category_is "food" row then
    [JObj [("category", JStr "food");
           ("suggestion", JStr "Уменьшите потребление мяса на 30%");
           ("potential_reduction", JInt 100);
           ("priority", JStr "high")]]
  else [].

Fixpoint recommendations_of (top_categories : list category_row) : list json :=
  match top_categories with
  | [] => []
  | row :: rest => (recommendation row ++ recommendations_of rest)%list
  end.

(** [sum([r["potential_reduction"] for r in recommendations])] *)
Fixpoint sum_potential_reduction (recommendations : list json) : Z + exn :=
  match recommendations with
  | [] => inl 0%Z
  | r :: rest =>
      match subscript r "potential_reduction" with
      | inl (JInt n) =>
          match sum_potential_reduction rest with
          | inl total => inl (n + total)%Z
          | inr e => inr e
          end
      | inl _ => inr TypeError
      | inr e => inr e
      end
  end.

(** [get_recommendations], from the rows its query returned. *)
Definition get_recommendations (user_id : Z)
                               (top_categories : list category_row)
  : json + exn :=
  let recommendations := recommendations_of top_categories in
  match sum_potential_reduction recommendations with
  | inl total =>
      inl (JObj [("user_id", JInt user_id);
                 ("recommendations", JArr recommendations);
                 ("total_potential_reduction", JInt total)])
  | inr e => inr e
  end.


End CarbonService.

(* ================================================================== *)
(** ** Facts about dicts *)
(* ================================================================== *)

Section DictFacts.
Context {V : Type}.
Implicit Types (d : dict V) (k : string) (v : V).

Lemma dict_get_set_same k v d : dict_get k (dict_set k v d) = Some v.
Proof.
  induction d as [|[k' v'] d IH]; simpl.
  - now rewrite String.eqb_refl.
  - destruct (String.eqb k k') eqn:E; simpl; rewrite ?String.eqb_refl, ?E; auto.
Qed.

Lemma dict_get_set_other k k' v d :
  k <> k' -> dict_get k' (dict_set k v d) = dict_get k' d.
Proof.
  intros Hne. induction d as [|[k0 v0] d IH]; simpl.
  - destruct (String.eqb_spec k' k); congruence.
  - destruct (String.eqb_spec k k0) as [->|Hk]; simpl.
    + destruct (String.eqb_spec k' k0); congruence.
    + destruct (String.eqb_spec k' k0); auto.
Qed.

Lemma keys_set_new k v d :
  ~ In k (keys d) -> keys (dict_set k v d) = (keys d ++ [k])%list.
Proof.
  unfold keys. induction d as [|[k' v'] d IH]; simpl; intros Hn; auto.
  destruct (String.eqb_spec k k') as [->|Hk]; simpl.
  - exfalso; auto.
  - f_equal. apply IH. tauto.
Qed.

Lemma keys_set_old k v d :
  In k (keys d) -> keys (dict_set k v d) = keys d.
Proof.
  unfold keys. induction d as [|[k' v'] d IH]; simpl; intros Hin.
  - contradiction.
  - destruct (String.eqb_spec k k') as [->|Hk]; simpl; auto.
    f_equal. apply IH. destruct Hin; congruence.
Qed.

Lemma NoDup_keys_set k v d : NoDup (keys d) -> NoDup (keys (dict_set k v d)).
Proof.
  intros Hnd. destruct (in_dec string_dec k (keys d)) as [Hin|Hn].
  - now rewrite keys_set_old.
  - rewrite keys_set_new by assumption.
    apply NoDup_app; auto.
    + repeat constructor. simpl. tauto.
    + intros x Hx [<-|[]]. contradiction.
Qed.

Lemma In_keys_set k v d : In k (keys (dict_set k v d)).
Proof.
  destruct (in_dec string_dec k (keys d)) as [Hin|Hn].
  - now rewrite keys_set_old.
  - rewrite keys_set_new by assumption. apply in_or_app. simpl. auto.
Qed.

Lemma dict_of_items_snoc (items : list (string * V)) k v :
  dict_of_items (items ++ [(k, v)]) = dict_set k v (dict_of_items items).
Proof. unfold dict_of_items. now rewrite fold_left_app. Qed.

Lemma NoDup_keys_fold (items : list (string * V)) d :
  NoDup (keys d) ->
  NoDup (keys (fold_left (fun acc kv => dict_set (fst kv) (snd kv) acc) items d)).
Proof.
  revert d. induction items as [|[k v] items IH]; simpl; intros d Hd; auto.
  apply IH. now apply NoDup_keys_set.
Qed.

Lemma NoDup_keys_of_items (items : list (string * V)) :
  NoDup (keys (dict_of_items items)).
Proof. apply NoDup_keys_fold. constructor. Qed.

Lemma dict_get_In_keys k d : In k (keys d) -> exists v, dict_get k d = Some v.
Proof.
  unfold keys. induction d as [|[k' v'] d IH]; simpl; intros Hin.
  - contradiction.
  - destruct (String.eqb_spec k k'); eauto.
    apply IH. destruct Hin; congruence.
Qed.
End DictFacts.

(* ================================================================== *)
(** ** The health aggregator *)
(* ================================================================== *)

Section HealthFacts.
Variable net : network.

Lemma probe_run health_status name url w :
  Gateway.probe net health_status (name, url) w =
  (inl (dict_set name (classify (snd (net (sent w) (health_request url))))
          health_status),
   mkWorld (now w + fst (net (sent w) (health_request url)))
           (sent w ++ [(now w, health_request url)])%list).
Proof.
  unfold Gateway.probe, try_except, bind, Gateway.client_get, call, health_request.
  destruct (snd (net _ _)) as [r|e]; simpl; reflexivity.
Qed.

(** Whatever the probes' outcomes, the loop ends normally with one new
    entry per item, in order; item [i]'s entry classifies the outcome
    of its own probe; and the probes go out one after another. *)
Lemma probe_all_run items : forall health_status w,
  NoDup (keys health_status ++ map fst items)%list ->
  exists report calls t_end,
    Gateway.probe_all net items health_status w
      = (inl report, mkWorld t_end (sent w ++ calls)%list) /\
    keys report = (keys health_status ++ map fst items)%list /\
    (forall k, In k (keys health_status) ->
               dict_get k report = dict_get k health_status) /\
    map snd calls = map (fun item => health_request (snd item)) items /\
    issued_serially net (sent w) (now w) calls t_end /\
    (forall i name url, nth_error items i = Some (name, url) ->
       dict_get name report =
       Some (classify (snd (net (sent w ++ firstn i calls)%list
                                (health_request url))))).
Proof.
  induction items as [|[name url] rest IH]; intros hs w Hnd.
  - exists hs, [], (now w). simpl. rewrite !app_nil_r.
    destruct w; simpl. repeat split; auto.
    intros [|i] ? ? Hi; discriminate.
  - simpl in Hnd.
    assert (Hname : ~ In name (keys hs))
      by (apply NoDup_remove_2 in Hnd; intros Hin; apply Hnd, in_or_app; auto).
    set (c := classify (snd (net (sent w) (health_request url)))).
    assert (Hnd1 : NoDup (keys (dict_set name c hs) ++ map fst rest)%list).
    { rewrite keys_set_new by assumption. rewrite <- app_assoc. exact Hnd. }
    destruct (IH (dict_set name c hs)
                 (mkWorld (now w + fst (net (sent w) (health_request url)))
                          (sent w ++ [(now w, health_request url)])%list) Hnd1)
      as (report & calls & t_end & Hrun & Hkeys & Hkeep & Hcalls & Hser & Hcls).
    simpl in Hrun, Hser, Hcls.
    exists report, ((now w, health_request url) :: calls), t_end.
    repeat split.
    + cbn [Gateway.probe_all]. unfold bind at 1. rewrite probe_run. fold c.
      rewrite Hrun. cbn [sent].
      now rewrite <- app_assoc.
    + rewrite Hkeys, keys_set_new by assumption. now rewrite <- app_assoc.
    + intros k Hk. rewrite Hkeep.
      * apply dict_get_set_other. intros ->. contradiction.
      * rewrite keys_set_new by assumption. apply in_or_app; auto.
    + simpl. now rewrite Hcalls.
    + exact Hser.
    + intros [|i] name' url' Hi; simpl in Hi.
      * injection Hi as <- <-. simpl. rewrite app_nil_r.
        rewrite Hkeep by apply In_keys_set.
        apply dict_get_set_same.
      * simpl. rewrite (Hcls i name' url' Hi). now rewrite <- app_assoc.
Qed.
End HealthFacts.

Lemma SERVICES_names environ :
  keys (Gateway.SERVICES environ) = ["auth"; "projects"; "carbon"; "monitoring"].
Proof. reflexivity. Qed.

Lemma issued_serially_elapsed net calls : forall history t t_end,
  issued_serially net history t calls t_end ->
  t_end = (t + elapsed net history calls)%N.
Proof.
  induction calls as [|[t_issue rq] rest IH]; simpl; intros history t t_end H.
  - subst. now rewrite N.add_0_r.
  - destruct H as [-> H]. apply IH in H. rewrite H. now rewrite N.add_assoc.
Qed.

Lemma elapsed_constant net T calls : forall history,
  (forall h rq, fst (net h rq) = T) ->
  elapsed net history calls = (N.of_nat (length calls) * T)%N.
Proof.
  induction calls as [|[t_issue rq] rest IH]; intros history HT.
  - reflexivity.
  - cbn [elapsed length]. rewrite HT, IH by assumption. lia.
Qed.

(** C3. Every health check ends normally with a report of exactly five
    entries, one for the gateway and one per registered service (auth,
    projects, carbon, monitoring), whatever the probes' outcomes.  The
    gateway's entry is "healthy"; a service's entry is the classification
    of its own probe: "healthy" on 200, "unhealthy" on another status,
    "unreachable" when the call raised.  One probe is sent per service. *)
Theorem health_check_report (environ : string -> option string)
                            (net : network) (w : world) :
  exists report calls t_end,
    Gateway.health_check environ net w
      = (inl report, mkWorld t_end (sent w ++ calls)%list) /\
    keys report = ["gateway"; "auth"; "projects"; "carbon"; "monitoring"] /\
    NoDup (keys report) /\
    dict_get "gateway" report = Some "healthy" /\
    map snd calls
      = map (fun item => health_request (snd item)) (Gateway.SERVICES environ) /\
    (forall i name url,
        nth_error (Gateway.SERVICES environ) i = Some (name, url) ->
        dict_get name report =
        Some (classify (snd (net (sent w ++ firstn i calls)%list
                                 (health_request url))))).
Proof.
  assert (Hnd : NoDup (keys [("gateway", "healthy")]
                         ++ map fst (Gateway.SERVICES environ))%list).
  { cbn. repeat (constructor; [cbn; intuition discriminate|]). constructor. }
  destruct (probe_all_run net (Gateway.SERVICES environ)
              [("gateway", "healthy")] w Hnd)
    as (report & calls & t_end & Hrun & Hkeys & Hkeep & Hcalls & _ & Hcls).
  exists report, calls, t_end. repeat split; auto.
  - rewrite Hkeys. exact Hnd.
  - rewrite Hkeep; [reflexivity | cbn; auto].
Qed.

(** C7, as the code has it.  The probes are not issued together: they
    go out one after another in registry order, each at the time the
    one before it ended, so the report's latency is the sum of the
    probes' durations, and four times the per-probe duration when every
    probe takes equally long. *)
Theorem health_probes_serial (environ : string -> option string)
                             (net : network) (w : world) :
  exists report calls t_end,
    Gateway.health_check environ net w
      = (inl report, mkWorld t_end (sent w ++ calls)%list) /\
    map snd calls
      = map (fun item => health_request (snd item)) (Gateway.SERVICES environ) /\
    issued_serially net (sent w) (now w) calls t_end /\
    t_end = (now w + elapsed net (sent w) calls)%N /\
    (forall T, (forall h rq, fst (net h rq) = T) -> t_end = (now w + 4 * T)%N).
Proof.
  assert (Hnd : NoDup (keys [("gateway", "healthy")]
                         ++ map fst (Gateway.SERVICES environ))%list).
  { cbn. repeat (constructor; [cbn; intuition discriminate|]). constructor. }
  destruct (probe_all_run net (Gateway.SERVICES environ)
              [("gateway", "healthy")] w Hnd)
    as (report & calls & t_end & Hrun & _ & _ & Hcalls & Hser & _).
  exists report, calls, t_end.
  pose proof (issued_serially_elapsed _ _ _ _ _ Hser) as Hel.
  repeat split; auto.
  intros T HT. rewrite Hel, (elapsed_constant net T) by assumption.
  apply (f_equal (@length _)) in Hcalls. rewrite !length_map in Hcalls.
  rewrite Hcalls. reflexivity.
Qed.

(** C7, as stated, fails, in both of its parts: with every backend
    hanging until the 5 s timeout, the probes are not issued together
    (the second goes out 5 s after the first), and the report takes
    20 s, not about one timeout. *)
Lemma health_probes_not_concurrent :
  ~ (forall (net : network) (w : world),
        (forall h rq, (fst (net h rq) <= health_timeout_ms)%N) ->
        exists report calls t_end,
          Gateway.health_check no_environ net w
            = (inl report, mkWorld t_end (sent w ++ calls)%list) /\
          (issued_together (now w) calls \/
           (t_end < now w + 2 * health_timeout_ms)%N)).
Proof.
  intros H.
  destruct (H all_hang idle) as (report & calls & t_end & Hrun & Hor).
  - intros h rq. cbn. reflexivity.
  - vm_compute in Hrun. injection Hrun as _ Ht Hcalls. subst t_end calls.
    destruct Hor as [Htogether|Hlat].
    + unfold issued_together in Htogether.
      apply Forall_inv_tail, Forall_inv in Htogether.
      discriminate Htogether.
    + vm_compute in Hlat. discriminate.
Qed.

(* ================================================================== *)
(** ** What each handler does, call by call *)
(* ================================================================== *)

(** [SERVICES[name]] for a name of the registry: the lookup computes. *)
Ltac lookup_service :=
  cbn [Gateway.service Gateway.SERVICES dict_get String.eqb Ascii.eqb
       Bool.eqb ret].

Section HandlerRuns.
Variable environ : string -> option string.
Variable repr_other : json -> string.
Variable net : network.

Lemma verify_token_run creds w :
  Gateway.verify_token environ net creds w =
  (match snd (net (sent w) (verify_request environ (credentials creds))) with
   | Responded r =>
       if (status_code r =? 200)%Z then
         match body_json r with
         | Some v => inl v
         | None => inr auth_unavailable
         end
       else inr auth_unavailable
   | Failed _ => inr auth_unavailable
   end,
   after net w (verify_request environ (credentials creds))).
Proof.
  unfold Gateway.verify_token, try_except, bind, Gateway.client_post, call,
    after, verify_request.
  lookup_service.
  destruct (snd (net _ _)) as [r|e]; cbn; [|reflexivity].
  destruct (status_code r =? 200)%Z; cbn; [|reflexivity].
  unfold json_of. destruct (body_json r); reflexivity.
Qed.

Lemma create_project_run project_data user_data u w :
  subscript user_data "user_id" = inl u ->
  Gateway.create_project environ repr_other net project_data user_data w =
  (match snd (net (sent w) (create_request environ repr_other project_data u)) with
   | Responded r =>
       match body_json r with
       | Some v => inl v
       | None => inr JSONDecodeError
       end
   | Failed e => inr (TransportError e)
   end,
   after net w (create_request environ repr_other project_data u)).
Proof.
  intros Hu.
  unfold Gateway.create_project, bind, lift, Gateway.client_post, call,
    after, create_request.
  lookup_service.
  rewrite Hu.
  destruct (snd (net _ _)) as [r|e]; cbn; [|reflexivity].
  unfold json_of. destruct (body_json r); reflexivity.
Qed.

Lemma handler_without_user_id (user_data : json) :
  (forall u, subscript user_data "user_id" <> inl u) ->
  exists e, subscript user_data "user_id" = inr e /\
            (e = KeyError "user_id" \/ e = TypeError).
Proof.
  intros Hno. unfold subscript in *.
  destruct user_data; eauto.
  destruct (dict_get "user_id" kvs) as [v|]; eauto.
  exfalso. now apply (Hno v).
Qed.

Lemma create_project_raises project_data user_data e w :
  subscript user_data "user_id" = inr e ->
  Gateway.create_project environ repr_other net project_data user_data w
    = (inr e, w).
Proof.
  intros He. unfold Gateway.create_project, bind, lift.
  lookup_service.
  now rewrite He.
Qed.

Lemma get_dashboard_raises user_data e w :
  subscript user_data "user_id" = inr e ->
  Gateway.get_dashboard environ repr_other net user_data w = (inr e, w).
Proof.
  intros He. unfold Gateway.get_dashboard, bind, lift.
  lookup_service.
  now rewrite He.
Qed.

Lemma get_dashboard_run user_data u w :
  subscript user_data "user_id" = inl u ->
  let p_rq := projects_request environ repr_other u in
  let c_rq := carbon_request environ repr_other u in
  Gateway.get_dashboard environ repr_other net user_data w =
  match snd (net (sent w) p_rq) with
  | Failed e => (inr (TransportError e), after net w p_rq)
  | Responded pr =>
      (match snd (net (sent (after net w p_rq)) c_rq) with
       | Failed e => inr (TransportError e)
       | Responded cr =>
           match body_json pr, body_json cr with
           | Some pv, Some cv =>
               inl (JObj [("projects", pv); ("carbon_footprint", cv)])
           | _, _ => inr JSONDecodeError
           end
       end,
       after net (after net w p_rq) c_rq)
  end.
Proof.
  intros Hu. cbv zeta.
  unfold Gateway.get_dashboard, bind, lift, Gateway.client_get, call,
    projects_request, carbon_request, after.
  lookup_service.
  rewrite Hu.
  destruct (snd (net (sent w) _)) as [pr|e]; cbn; [|reflexivity].
  destruct (snd (net _ _)) as [cr|e]; cbn; [|reflexivity].
  unfold json_of, ret, raise.
  destruct (body_json pr), (body_json cr); reflexivity.
Qed.
End HandlerRuns.

(* ================================================================== *)
(** ** Token verification *)
(* ================================================================== *)

(** C2, evaluated on the code.  Whatever the auth backend does short of
    a 200 with a JSON body, [verify_token] raises the 503 error: the 401
    raised for a non-200 response is caught by the bare [except] around
    it and replaced, exactly as a transport failure is.  No run of
    [verify_token] ends in a 401. *)
Theorem verify_token_failures_all_503 (environ : string -> option string)
    (net : network) (creds : HTTPAuthorizationCredentials) (w : world) :
  let out := snd (net (sent w) (verify_request environ (credentials creds))) in
  let result := fst (Gateway.verify_token environ net creds w) in
  (forall r, out = Responded r -> status_code r <> 200%Z ->
             result = inr auth_unavailable /\
             reply_status (respond result) = 503%Z) /\
  (forall e, out = Failed e ->
             result = inr auth_unavailable /\
             reply_status (respond result) = 503%Z) /\
  (forall detail, result <> inr (HTTPException 401 detail)).
Proof.
  cbv zeta. rewrite verify_token_run. cbn [fst].
  split; [|split].
  - intros r Hr Hne. rewrite Hr. apply Z.eqb_neq in Hne. rewrite Hne.
    split; reflexivity.
  - intros e He. rewrite He. split; reflexivity.
  - intros detail.
    destruct (snd (net _ _)) as [r|e]; [|discriminate].
    destruct (status_code r =? 200)%Z; [|discriminate].
    destruct (body_json r); discriminate.
Qed.

(** C1, evaluated on the code.  A request whose [Authorization] header
    the bearer scheme rejects ends with that rejection and no call at
    all.  A request whose credential the auth backend does not answer
    with 200 ends, on both protected routes, with the 503 error (not a
    401) after the one call to the auth backend: no data backend is
    called. *)
Theorem rejected_requests_call_no_data_backend
    (environ : string -> option string) (repr_other : json -> string)
    (status : Z) (net : network) (authorization : option string)
    (project_data : dict json) (w : world) :
  let projects :=
    Gateway.post_api_projects environ repr_other status net authorization
      project_data w in
  let dashboard :=
    Gateway.get_api_dashboard environ repr_other status net authorization w in
  HTTPBearer status None = inr (HTTPException status "Not authenticated") /\
  (forall e, HTTPBearer status authorization = inr e ->
             projects = (inr e, w) /\ dashboard = (inr e, w)) /\
  (forall creds, HTTPBearer status authorization = inl creds ->
     let rq := verify_request environ (credentials creds) in
     (forall r, snd (net (sent w) rq) = Responded r -> status_code r <> 200%Z) ->
     projects = (inr auth_unavailable, after net w rq) /\
     dashboard = (inr auth_unavailable, after net w rq) /\
     sent (after net w rq) = (sent w ++ [(now w, rq)])%list).
Proof.
  cbv zeta.
  unfold Gateway.post_api_projects, Gateway.get_api_dashboard,
    Gateway.depends_verify_token, bind, lift.
  split; [reflexivity|]. split.
  - intros e He. now rewrite He.
  - intros creds Hc Hrej. rewrite Hc, verify_token_run.
    destruct (snd (net _ _)) as [r|e] eqn:Hout; [|now repeat split].
    specialize (Hrej r eq_refl). apply Z.eqb_neq in Hrej. rewrite Hrej.
    now repeat split.
Qed.

(** C9, as stated, fails: when the auth backend answers 200 with the
    object [{}], verification succeeds and hands on an identity without
    [user_id]. *)
Lemma verify_token_accepts_identity_without_user_id :
  ~ (forall (net : network) (creds : HTTPAuthorizationCredentials)
            (w : world) (r : response) (identity : json),
        snd (net (sent w) (verify_request no_environ (credentials creds)))
          = Responded r ->
        status_code r = 200%Z ->
        fst (Gateway.verify_token no_environ net creds w) = inl identity ->
        exists u, subscript identity "user_id" = inl u).
Proof.
  intros H.
  destruct (H auth_says_empty (mkCredentials "Bearer" "t") idle
              (mkResponse 200 (Some (JObj []))) (JObj [])
              eq_refl eq_refl eq_refl) as [u Hu].
  discriminate Hu.
Qed.

(** C9, as the code has it.  When the auth backend answers 200, the
    verifier returns the parsed body as it is, with no check for
    [user_id]; only a body that is not JSON makes the verification fail
    (503).  An operation that is handed an identity without [user_id]
    raises ([KeyError], or [TypeError] when the identity is no object)
    before it calls any backend. *)
Theorem verify_token_returns_body_unchecked
    (environ : string -> option string) (repr_other : json -> string)
    (net : network) (creds : HTTPAuthorizationCredentials) (w : world)
    (r : response) :
  snd (net (sent w) (verify_request environ (credentials creds)))
    = Responded r ->
  status_code r = 200%Z ->
  (forall v, body_json r = Some v ->
             fst (Gateway.verify_token environ net creds w) = inl v) /\
  (body_json r = None ->
   fst (Gateway.verify_token environ net creds w) = inr auth_unavailable) /\
  (forall identity project_data w',
      (forall u, subscript identity "user_id" <> inl u) ->
      exists e,
        (e = KeyError "user_id" \/ e = TypeError) /\
        Gateway.create_project environ repr_other net project_data identity w'
          = (inr e, w') /\
        Gateway.get_dashboard environ repr_other net identity w' = (inr e, w')).
Proof.
  intros Hout H200. rewrite verify_token_run, Hout, H200. cbn [fst Z.eqb Pos.eqb].
  repeat split.
  - intros v Hv. now rewrite Hv.
  - intros Hn. now rewrite Hn.
  - intros identity project_data w' Hno.
    destruct (handler_without_user_id identity Hno) as (e & He & Hkind).
    exists e. split; [exact Hkind|]. split.
    + now apply create_project_raises.
    + now apply get_dashboard_raises.
Qed.

Lemma verify_token_returns_body_unchecked_witness :
  snd (auth_says_empty (sent idle) (verify_request no_environ "t"))
    = Responded (mkResponse 200 (Some (JObj []))) /\
  fst (Gateway.verify_token no_environ auth_says_empty
         (mkCredentials "Bearer" "t") idle) = inl (JObj []) /\
  exists e,
    Gateway.create_project no_environ no_repr auth_says_empty
      [("name", JStr "Reforestation")] (JObj []) idle = (inr e, idle).
Proof.
  destruct (verify_token_returns_body_unchecked no_environ no_repr
              auth_says_empty (mkCredentials "Bearer" "t") idle
              (mkResponse 200 (Some (JObj []))) eq_refl eq_refl)
    as (Hbody & _ & Hops).
  split; [reflexivity|]. split; [apply Hbody; reflexivity|].
  destruct (Hops (JObj []) [("name", JStr "Reforestation")] idle)
    as (e & _ & Hcreate & _).
  - intros u Hu. discriminate Hu.
  - exists e. exact Hcreate.
Defined.

(* ================================================================== *)
(** ** Create-project *)
(* ================================================================== *)

(** C5. With an identity whose [user_id] is the number [n],
    create-project issues exactly one call, a POST to the projects
    backend's [/projects]; its JSON body is an object in which the key
    [created_by] occurs once and holds [n] (also when the payload
    brought a [created_by] of its own), and its headers are the single
    header [X-User-Id] with the decimal text of [n]. *)
Theorem create_project_forwards_identity
    (environ : string -> option string) (repr_other : json -> string)
    (net : network) (project_data : dict json) (user_data : json) (n : Z)
    (w : world) :
  subscript user_data "user_id" = inl (JInt n) ->
  exists body headers,
    sent (snd (Gateway.create_project environ repr_other net project_data
                 user_data w))
    = (sent w ++
       [(now w,
         mkRequest POST
           (Gateway.getenv environ "PROJECT_SERVICE_URL"
              "http://project-service:8002" ++ "/projects")
           (Some (JObj body)) headers)])%list /\
    dict_get "created_by" body = Some (JInt n) /\
    count_occ string_dec (keys body) "created_by" = 1 /\
    headers = [("X-User-Id", NilZero.string_of_int (Z.to_int n))].
Proof.
  intros Hu.
  exists (dict_of_items (project_data ++ [("created_by", JInt n)])%list).
  exists [("X-User-Id", NilZero.string_of_int (Z.to_int n))].
  rewrite (create_project_run environ repr_other net project_data user_data
             (JInt n) w Hu).
  split; [reflexivity|].
  rewrite dict_of_items_snoc. split; [apply dict_get_set_same|].
  split; [|reflexivity].
  apply NoDup_count_occ'.
  - apply NoDup_keys_set, NoDup_keys_of_items.
  - apply In_keys_set.
Qed.

Lemma create_project_forwards_identity_witness :
  subscript identity_42 "user_id" = inl (JInt 42) /\
  exists body headers,
    sent (snd (Gateway.create_project no_environ no_repr all_hang
                 [("name", JStr "Reforestation"); ("created_by", JInt 7)]
                 identity_42 idle))
    = [(0%N,
        mkRequest POST "http://project-service:8002/projects"
          (Some (JObj body)) headers)] /\
    dict_get "created_by" body = Some (JInt 42) /\
    count_occ string_dec (keys body) "created_by" = 1 /\
    headers = [("X-User-Id", "42")].
Proof.
  split; [reflexivity|].
  exact (create_project_forwards_identity no_environ no_repr all_hang
           [("name", JStr "Reforestation"); ("created_by", JInt 7)]
           identity_42 42%Z idle eq_refl).
Defined.

(** C6, as stated, fails: when the projects backend answers
    create-project's call with 422 and an error body, the gateway
    returns that body as a success (200). *)
Lemma create_project_passes_error_response_as_success :
  ~ (forall (net : network) (project_data : dict json) (w : world)
            (r : response),
        snd (net (sent w)
               (create_request no_environ no_repr project_data (JInt 42)))
          = Responded r ->
        is_2xx (status_code r) = false ->
        exists e,
          fst (Gateway.create_project no_environ no_repr net project_data
                 identity_42 w) = inr e).
Proof.
  intros H.
  destruct (H projects_failing [("name", JStr "Reforestation")] idle
              (mkResponse 422 (Some missing_x_user_id))
              eq_refl eq_refl) as [e He].
  discriminate He.
Qed.

(** C6, as the code has it.  Create-project does not look at the status
    of the projects backend's response: whenever the response carries a
    JSON body, that body is the gateway's result, sent with 200,
    whatever the backend's status.  The request fails only when the call
    raises (connection failure, timeout) or the body is not JSON; the
    exception then propagates unchanged and is answered with 500.  No
    default value stands in for a failed call. *)
Theorem create_project_passes_response_through
    (environ : string -> option string) (repr_other : json -> string)
    (net : network) (project_data : dict json) (user_data u : json)
    (w : world) :
  subscript user_data "user_id" = inl u ->
  let out := snd (net (sent w)
                    (create_request environ repr_other project_data u)) in
  let result := fst (Gateway.create_project environ repr_other net
                       project_data user_data w) in
  (forall r v, out = Responded r -> body_json r = Some v ->
               result = inl v /\ respond result = mkReply 200 (Some v)) /\
  (forall r, out = Responded r -> body_json r = None ->
             result = inr JSONDecodeError /\ reply_status (respond result) = 500%Z) /\
  (forall e, out = Failed e ->
             result = inr (TransportError e) /\
             reply_status (respond result) = 500%Z).
Proof.
  intros Hu. cbv zeta.
  rewrite (create_project_run environ repr_other net project_data user_data u w Hu).
  cbn [fst]. split; [|split].
  - intros r v Hr Hv. rewrite Hr, Hv. split; reflexivity.
  - intros r Hr Hv. rewrite Hr, Hv. split; reflexivity.
  - intros e He. rewrite He. split; reflexivity.
Qed.

Lemma create_project_passes_response_through_witness :
  subscript identity_42 "user_id" = inl (JInt 42) /\
  respond (fst (Gateway.create_project no_environ no_repr projects_failing
                  [("name", JStr "Reforestation")] identity_42 idle))
  = mkReply 200 (Some missing_x_user_id).
Proof.
  split; [reflexivity|].
  destruct (create_project_passes_response_through no_environ no_repr
              projects_failing [("name", JStr "Reforestation")]
              identity_42 (JInt 42) idle eq_refl) as (Hbody & _ & _).
  apply (Hbody (mkResponse 422 (Some missing_x_user_id))); reflexivity.
Defined.

(* ================================================================== *)
(** ** Get-dashboard *)
(* ================================================================== *)

(** C10. With an identity whose [user_id] is [u], get-dashboard issues
    its calls one after the other: first the projects-by-user call, and
    the carbon-footprint call only when the first has ended with a
    response, at the time it ended.  When the projects call raises, the
    request fails with that exception and the carbon call is never
    issued. *)
Theorem get_dashboard_calls_in_order
    (environ : string -> option string) (repr_other : json -> string)
    (net : network) (user_data u : json) (w : world) :
  subscript user_data "user_id" = inl u ->
  let p_rq := projects_request environ repr_other u in
  let c_rq := carbon_request environ repr_other u in
  let run := Gateway.get_dashboard environ repr_other net user_data w in
  match snd (net (sent w) p_rq) with
  | Failed e =>
      fst run = inr (TransportError e) /\
      sent (snd run) = (sent w ++ [(now w, p_rq)])%list
  | Responded _ =>
      sent (snd run)
      = (sent w ++ [(now w, p_rq);
                    ((now w + fst (net (sent w) p_rq))%N, c_rq)])%list
  end.
Proof.
  intros Hu. cbv zeta.
  rewrite (get_dashboard_run environ repr_other net user_data u w Hu).
  cbv zeta.
  destruct (snd (net (sent w) _)) as [pr|e].
  - cbn. now rewrite <- app_assoc.
  - split; reflexivity.
Qed.

Lemma get_dashboard_calls_in_order_witness :
  subscript identity_42 "user_id" = inl (JInt 42) /\
  fst (Gateway.get_dashboard no_environ no_repr all_hang identity_42 idle)
    = inr (TransportError ReadTimeout) /\
  sent (snd (Gateway.get_dashboard no_environ no_repr all_hang identity_42 idle))
    = [(0%N, mkRequest GET "http://project-service:8002/projects/user/42" None [])].
Proof.
  split; [reflexivity|].
  exact (get_dashboard_calls_in_order no_environ no_repr all_hang
           identity_42 (JInt 42) idle eq_refl).
Defined.

(** C4, as stated, fails: when the projects backend answers with 404
    and an error body, get-dashboard still succeeds, with that error
    body under [projects]. *)
Lemma get_dashboard_accepts_error_response :
  ~ (forall (net : network) (w : world) (r : response),
        snd (net (sent w) (projects_request no_environ no_repr (JInt 42)))
          = Responded r ->
        is_2xx (status_code r) = false ->
        exists e,
          fst (Gateway.get_dashboard no_environ no_repr net identity_42 w)
            = inr e).
Proof.
  intros H.
  destruct (H projects_failing idle
              (mkResponse 404 (Some not_found))
              eq_refl eq_refl) as [e He].
  discriminate He.
Qed.

(** C4, as the code has it.  With an identity whose [user_id] is [u]:
    when both calls end with a response that carries a JSON body,
    whatever the two statuses, the result is the object holding the
    first body under [projects] and the second under
    [carbon_footprint].  When a call raises (connection failure,
    timeout), or a body is not JSON, the whole request fails with that
    exception: no composite, and no default or empty value, is
    returned. *)
Theorem get_dashboard_result
    (environ : string -> option string) (repr_other : json -> string)
    (net : network) (user_data u : json) (w : world) :
  subscript user_data "user_id" = inl u ->
  let p_rq := projects_request environ repr_other u in
  let c_rq := carbon_request environ repr_other u in
  let p_out := snd (net (sent w) p_rq) in
  let c_out := snd (net (sent w ++ [(now w, p_rq)])%list c_rq) in
  let result :=
    fst (Gateway.get_dashboard environ repr_other net user_data w) in
  (forall pr cr pv cv,
      p_out = Responded pr -> c_out = Responded cr ->
      body_json pr = Some pv -> body_json cr = Some cv ->
      result = inl (JObj [("projects", pv); ("carbon_footprint", cv)])) /\
  (forall e, p_out = Failed e -> result = inr (TransportError e)) /\
  (forall pr e, p_out = Responded pr -> c_out = Failed e ->
                result = inr (TransportError e)) /\
  (forall pr cr, p_out = Responded pr -> c_out = Responded cr ->
                 body_json pr = None \/ body_json cr = None ->
                 result = inr JSONDecodeError).
Proof.
  intros Hu. cbv zeta.
  rewrite (get_dashboard_run environ repr_other net user_data u w Hu).
  cbv zeta. unfold after. cbn [sent].
  split; [|split; [|split]].
  - intros pr cr pv cv Hp Hc Hpv Hcv. now rewrite Hp, Hc, Hpv, Hcv.
  - intros e Hp. now rewrite Hp.
  - intros pr e Hp Hc. now rewrite Hp, Hc.
  - intros pr cr Hp Hc Hnone. rewrite Hp, Hc. cbn [fst].
    destruct Hnone as [Hn|Hn]; rewrite Hn; [reflexivity|].
    destruct (body_json pr); reflexivity.
Qed.

Lemma get_dashboard_result_witness :
  subscript identity_42 "user_id" = inl (JInt 42) /\
  fst (Gateway.get_dashboard no_environ no_repr projects_failing identity_42 idle)
  = inl (JObj [("projects", not_found);
               ("carbon_footprint", JObj [("total", JInt 7)])]).
Proof.
  split; [reflexivity|].
  destruct (get_dashboard_result no_environ no_repr projects_failing
              identity_42 (JInt 42) idle eq_refl) as (Hboth & _).
  apply (Hboth (mkResponse 404 (Some not_found))
               (mkResponse 200 (Some (JObj [("total", JInt 7)]))));
    reflexivity.
Defined.

(* ================================================================== *)
(** ** The gateway's verification call at the auth service *)
(* ================================================================== *)

Lemma strip_prefix_app (p s : string) : strip_prefix p (p ++ s) = Some s.
Proof.
  induction p as [|c p IH]; simpl.
  - now destruct s.
  - now rewrite Ascii.eqb_refl.
Qed.

(** What the auth service's [verify_token] does with a token that
    reaches it. *)
Lemma auth_verify_token_cases (jwt_decode : string -> AuthService.decoded)
                              (token : string) :
  match jwt_decode token with
  | AuthService.Payload payload =>
      forall user_id sub,
        dict_get "user_id" payload = Some user_id ->
        dict_get "sub" payload = Some sub ->
        respond (AuthService.verify_token jwt_decode token)
        = mkReply 200 (Some (JObj [("user_id", user_id); ("email", sub)]))
  | _ => reply_status (respond (AuthService.verify_token jwt_decode token))
         = 401%Z
  end.
Proof.
  unfold AuthService.verify_token.
  destruct (jwt_decode token); try reflexivity.
  intros user_id sub Hu Hs. now rewrite Hu, Hs.
Qed.

(** C8, evaluated on the code.  The gateway forwards the credential to
    [POST /verify] in the [Authorization] header and sends no query
    string.  The auth service's route takes the token from the query
    parameter [token] and never reads the header, so it answers the
    gateway's call with 422 whatever the token is, valid ones included;
    the gateway then fails the request with its 503 error. *)
Theorem gateway_verify_call_misses_auth_interface
    (environ : string -> option string)
    (jwt_decode : string -> AuthService.decoded)
    (missing_parameter : string -> json) (unquote : string -> string)
    (others : network) (creds : HTTPAuthorizationCredentials) (w : world) :
  let net := deployed environ jwt_decode missing_parameter unquote others in
  let rq := verify_request environ (credentials creds) in
  req_method rq = POST /\
  req_headers rq = [("Authorization", "Bearer " ++ credentials creds)] /\
  snd (net (sent w) rq)
    = Responded (mkResponse 422 (Some (missing_parameter "token"))) /\
  Gateway.verify_token environ net creds w
    = (inr auth_unavailable, after net w rq).
Proof.
  cbv zeta.
  assert (Hout : snd (deployed environ jwt_decode missing_parameter unquote
                        others (sent w)
                        (verify_request environ (credentials creds)))
                 = Responded (mkResponse 422 (Some (missing_parameter "token")))).
  { unfold deployed, verify_request. cbn [req_url req_method].
    rewrite strip_prefix_app. reflexivity. }
  repeat split; auto.
  rewrite verify_token_run, Hout. reflexivity.
Qed.


(* ================================================================== *)
(** ** Runs on concrete requests *)
(* ================================================================== *)

(** A rejected token on [POST /api/projects]: the client is answered
    503, and the only call issued is the one to the auth backend. *)
Example rejected_token_run :
  let run :=
    Gateway.post_api_projects no_environ no_repr 403 auth_rejects
      (Some "Bearer expired") [("name", JStr "Reforestation")] idle in
  respond (fst run)
    = mkReply 503 (Some (JObj [("detail", JStr "Auth service unavailable")])) /\
  map snd (sent (snd run)) = [verify_request no_environ "expired"].
Proof. split; reflexivity. Qed.

(** A request without [Authorization] header: rejected with no call. *)
Example missing_credential_run :
  Gateway.get_api_dashboard no_environ no_repr 403 all_hang None idle
  = (inr (HTTPException 403 "Not authenticated"), idle).
Proof. reflexivity. Qed.

(** A health check over backends in four different states. *)
Example mixed_health_run :
  Gateway.health_check no_environ mixed_health idle
  = (inl [("gateway", "healthy"); ("auth", "healthy");
          ("projects", "unhealthy"); ("carbon", "unreachable");
          ("monitoring", "unreachable")],
     mkWorld 5031
       [(0%N, health_request "http://auth-service:8001");
        (10%N, health_request "http://project-service:8002");
        (30%N, health_request "http://carbon-service:8003");
        (5030%N, health_request "http://monitoring-service:8004")]).
Proof. reflexivity. Qed.

(** Four hanging backends: the probes go out 5 s apart and the report
    takes 20 s. *)
Example all_hang_run :
  Gateway.health_check no_environ all_hang idle
  = (inl [("gateway", "healthy"); ("auth", "unreachable");
          ("projects", "unreachable"); ("carbon", "unreachable");
          ("monitoring", "unreachable")],
     mkWorld 20000
       [(0%N, health_request "http://auth-service:8001");
        (5000%N, health_request "http://project-service:8002");
        (10000%N, health_request "http://carbon-service:8003");
        (15000%N, health_request "http://monitoring-service:8004")]).
Proof. reflexivity. Qed.

(** The addresses can be set in the environment. *)
Example configured_address_run :
  map snd
    (sent (snd (Gateway.get_dashboard
                  (fun key => if String.eqb key "CARBON_SERVICE_URL"
                              then Some "http://10.0.0.3:9000" else None)
                  no_repr all_hang identity_42 idle)))
  = [mkRequest GET "http://project-service:8002/projects/user/42" None []].
Proof. reflexivity. Qed.

(* ================================================================== *)
(** ** The auth service's user table *)
(* ================================================================== *)

Lemma fetch_by_email_absent e db :
  ~ In e (map Accounts.email db) -> Accounts.fetch_by_email e db = None.
Proof.
  unfold Accounts.fetch_by_email.
  induction db as [|u db IH]; simpl; intros Hn; auto.
  destruct (String.eqb_spec (Accounts.email u) e) as [He|He].
  - exfalso. auto.
  - apply IH. tauto.
Qed.

Lemma fetch_by_email_present e db :
  In e (map Accounts.email db) ->
  exists u, Accounts.fetch_by_email e db = Some u /\ Accounts.email u = e.
Proof.
  unfold Accounts.fetch_by_email.
  induction db as [|u db IH]; simpl; intros Hin; [contradiction|].
  destruct (String.eqb_spec (Accounts.email u) e) as [He|He]; eauto.
  apply IH. destruct Hin; congruence.
Qed.

Lemma email_free e db :
  ~ In e (map Accounts.email db) ->
  existsb (fun u => String.eqb (Accounts.email u) e) db = false.
Proof.
  induction db as [|u db IH]; simpl; intros Hn; auto.
  destruct (String.eqb_spec (Accounts.email u) e) as [He|He]; simpl.
  - exfalso. auto.
  - apply IH. tauto.
Qed.

Lemma id_below_next db u :
  In u db -> (Accounts.id u < Accounts.next_id db)%Z.
Proof.
  unfold Accounts.next_id.
  induction db as [|v db IH]; cbn [fold_right In]; intros Hin; [contradiction|].
  destruct Hin as [->|Hin]; [lia|]. specialize (IH Hin). lia.
Qed.

Lemma next_id_fresh db : ~ In (Accounts.next_id db) (map Accounts.id db).
Proof.
  intros Hin. apply in_map_iff in Hin. destruct Hin as (u & Hu & Hin).
  apply id_below_next in Hin. lia.
Qed.

Lemma fetch_by_email_last e db u :
  ~ In e (map Accounts.email db) -> Accounts.email u = e ->
  Accounts.fetch_by_email e (db ++ [u])%list = Some u.
Proof.
  unfold Accounts.fetch_by_email. intros Hn He.
  induction db as [|v db IH]; simpl.
  - rewrite He, String.eqb_refl. reflexivity.
  - simpl in Hn. destruct (String.eqb_spec (Accounts.email v) e) as [Hv|Hv].
    + exfalso. auto.
    + apply IH. tauto.
Qed.

Lemma fetch_by_id_last i db u :
  ~ In i (map Accounts.id db) -> Accounts.id u = i ->
  Accounts.fetch_by_id i (db ++ [u])%list = Some u.
Proof.
  unfold Accounts.fetch_by_id. intros Hn Hi.
  induction db as [|v db IH]; simpl.
  - rewrite Hi, Z.eqb_refl. reflexivity.
  - simpl in Hn. destruct (Z.eqb_spec (Accounts.id v) i) as [Hv|Hv].
    + exfalso. auto.
    + apply IH. tauto.
Qed.

Lemma fetch_by_id_absent i db :
  ~ In i (map Accounts.id db) -> Accounts.fetch_by_id i db = None.
Proof.
  unfold Accounts.fetch_by_id.
  induction db as [|u db IH]; simpl; intros Hn; auto.
  destruct (Z.eqb_spec (Accounts.id u) i) as [He|He].
  - exfalso. auto.
  - apply IH. tauto.
Qed.

Section RegisterFacts.
Variable pwd_hash : string -> string -> string.
Variable jwt_encode : dict Accounts.claim -> string.

(** What a registration with a free email does. *)
Lemma register_new user amb db :
  ~ In (Accounts.new_email user) (map Accounts.email db) ->
  Accounts.register pwd_hash jwt_encode user amb db =
  (inl (Accounts.token_reply
          (Accounts.create_access_token jwt_encode
             (Accounts.token_data (Accounts.new_email user) (Accounts.next_id db))
             None (Accounts.utcnow amb))
          (Accounts.next_id db)),
   (db ++ [Accounts.mkUserRow (Accounts.next_id db)
             (Accounts.new_email user) (Accounts.new_username user)
             (pwd_hash (Accounts.salt amb) (Accounts.new_password user))
             (Accounts.new_organization user)
             (Accounts.created_at_default amb)
             (Accounts.is_active_default amb)])%list).
Proof.
  intros Hfree. unfold Accounts.register, Accounts.insert.
  rewrite fetch_by_email_absent, email_free by assumption. reflexivity.
Qed.

Lemma register_taken user amb db :
  In (Accounts.new_email user) (map Accounts.email db) ->
  Accounts.register pwd_hash jwt_encode user amb db =
  (inr (Accounts.Http 400 "Email already registered"), db).
Proof.
  intros Hin. unfold Accounts.register.
  destruct (fetch_by_email_present _ _ Hin) as (u & Hu & _). now rewrite Hu.
Qed.

Lemma register_well_formed user amb db :
  Accounts.well_formed db ->
  Accounts.well_formed (snd (Accounts.register pwd_hash jwt_encode user amb db)).
Proof.
  intros [Hemails Hids].
  destruct (in_dec string_dec (Accounts.new_email user) (map Accounts.email db))
    as [Hin|Hfree].
  - rewrite register_taken by assumption. now split.
  - rewrite register_new by assumption. cbn [snd].
    unfold Accounts.well_formed. rewrite !map_app. cbn [map].
    split; apply NoDup_app; auto; try (repeat constructor; simpl; tauto).
    + intros e He [<-|[]]. contradiction.
    + intros i Hi [<-|[]]. now apply next_id_fresh in Hi.
Qed.

End RegisterFacts.


(** X2. Every table built from the empty one by registrations, in any
    number and with any inputs, holds each email in one row only and
    each key in one row only. *)
Theorem registrations_keep_table_well_formed
    (pwd_hash : string -> string -> string)
    (jwt_encode : dict Accounts.claim -> string) (db : Accounts.table) :
  Accounts.reachable pwd_hash jwt_encode db -> Accounts.well_formed db.
Proof.
  induction 1 as [|user amb db Hreach IH].
  - split; constructor.
  - now apply register_well_formed.
Qed.

Lemma registrations_keep_table_well_formed_witness :
  Accounts.reachable Accounts.plain_hash Accounts.one_token
    (snd (Accounts.register Accounts.plain_hash Accounts.one_token
            Accounts.ada Accounts.noon
            (snd (Accounts.register Accounts.plain_hash Accounts.one_token
                    Accounts.ada Accounts.noon [])))) /\
  Accounts.well_formed
    (snd (Accounts.register Accounts.plain_hash Accounts.one_token
            Accounts.ada Accounts.noon
            (snd (Accounts.register Accounts.plain_hash Accounts.one_token
                    Accounts.ada Accounts.noon [])))).
Proof.
  assert (Hreach :
    Accounts.reachable Accounts.plain_hash Accounts.one_token
      (snd (Accounts.register Accounts.plain_hash Accounts.one_token
              Accounts.ada Accounts.noon
              (snd (Accounts.register Accounts.plain_hash Accounts.one_token
                      Accounts.ada Accounts.noon [])))))
    by (do 2 apply Accounts.reachable_register; apply Accounts.reachable_empty).
  split; [exact Hreach|].
  exact (registrations_keep_table_well_formed _ _ _ Hreach).
Defined.

(** X3. After a registration with a free email, a login with the same
    email and password finds the new row and accepts the password
    (given that verifying a password against its own hash succeeds).  It
    returns a token for the key the registration returned when the row
    was stored as active, and is answered 400 "Inactive user" when the
    row's [is_active] was stored as false or NULL.  A password that does
    not verify is answered 401. *)
Theorem register_then_login
    (pwd_hash : string -> string -> string)
    (pwd_verify : string -> string -> bool)
    (jwt_encode : dict Accounts.claim -> string)
    (user : Accounts.UserCreate) (amb : Accounts.ambient)
    (db : Accounts.table) (now : Z) :
  (forall s p, pwd_verify p (pwd_hash s p) = true) ->
  ~ In (Accounts.new_email user) (map Accounts.email db) ->
  let run := Accounts.register pwd_hash jwt_encode user amb db in
  let email := Accounts.new_email user in
  exists access_token user_id,
    fst run = inl (Accounts.token_reply access_token user_id) /\
    Accounts.login pwd_verify jwt_encode
      (Accounts.mkUserLogin email (Accounts.new_password user)) now (snd run)
    = match Accounts.is_active_default amb with
      | Some true =>
          inl (Accounts.token_reply
                 (Accounts.create_access_token jwt_encode
                    (Accounts.token_data email user_id) None now)
                 user_id)
      | _ => inr (Accounts.Http 400 "Inactive user")
      end /\
    (forall wrong,
        pwd_verify wrong
          (pwd_hash (Accounts.salt amb) (Accounts.new_password user)) = false ->
        Accounts.login pwd_verify jwt_encode
          (Accounts.mkUserLogin email wrong) now (snd run)
        = inr (Accounts.Http 401 "Invalid credentials")).
Proof.
  intros Hround Hfree. cbv zeta.
  rewrite register_new by assumption. cbn [fst snd].
  eexists _, (Accounts.next_id db). split; [reflexivity|].
  unfold Accounts.login. cbn [Accounts.login_email Accounts.login_password].
  rewrite fetch_by_email_last by (assumption || reflexivity).
  cbn [Accounts.hashed_password Accounts.is_active Accounts.email Accounts.id].
  unfold Accounts.verify_password. split.
  - rewrite Hround. cbn [negb].
    destruct (Accounts.is_active_default amb) as [[|]|]; reflexivity.
  - intros wrong Hwrong. now rewrite Hwrong.
Qed.

Lemma register_then_login_witness :
  (forall s p, Accounts.plain_verify p (Accounts.plain_hash s p) = true) /\
  ~ In (Accounts.new_email Accounts.ada) (map Accounts.email []) /\
  exists access_token user_id,
    fst (Accounts.register Accounts.plain_hash Accounts.one_token
           Accounts.ada Accounts.noon [])
    = inl (Accounts.token_reply access_token user_id) /\
    Accounts.login Accounts.plain_verify Accounts.one_token
      (Accounts.mkUserLogin "ada@example.org" "s3cret") 5
      (snd (Accounts.register Accounts.plain_hash Accounts.one_token
              Accounts.ada Accounts.noon []))
    = inl (Accounts.token_reply "token-1" user_id) /\
    (forall wrong,
        Accounts.plain_verify wrong "s3cret" = false ->
        Accounts.login Accounts.plain_verify Accounts.one_token
          (Accounts.mkUserLogin "ada@example.org" wrong) 5
          (snd (Accounts.register Accounts.plain_hash Accounts.one_token
                  Accounts.ada Accounts.noon []))
        = inr (Accounts.Http 401 "Invalid credentials")).
Proof.
  assert (Hround : forall s p,
             Accounts.plain_verify p (Accounts.plain_hash s p) = true)
    by (intros s p; apply String.eqb_refl).
  assert (Hfree : ~ In (Accounts.new_email Accounts.ada)
                       (map Accounts.email []))
    by (simpl; tauto).
  split; [exact Hround|]. split; [exact Hfree|].
  exact (register_then_login Accounts.plain_hash Accounts.plain_verify
           Accounts.one_token Accounts.ada Accounts.noon [] 5 Hround Hfree).
Defined.

(** X4. A login with an email no row has and a login with a known
    email whose password does not verify are answered alike, 401
    "Invalid credentials": the reply does not tell which part was
    wrong, also when the known account is inactive. *)
Theorem login_failures_alike
    (pwd_verify : string -> string -> bool)
    (jwt_encode : dict Accounts.claim -> string)
    (db : Accounts.table) (unknown known : Accounts.UserLogin)
    (u : Accounts.user_row) (now now' : Z) :
  ~ In (Accounts.login_email unknown) (map Accounts.email db) ->
  Accounts.fetch_by_email (Accounts.login_email known) db = Some u ->
  pwd_verify (Accounts.login_password known) (Accounts.hashed_password u)
    = false ->
  Accounts.login pwd_verify jwt_encode unknown now db
    = inr (Accounts.Http 401 "Invalid credentials") /\
  Accounts.login pwd_verify jwt_encode known now' db
    = Accounts.login pwd_verify jwt_encode unknown now db.
Proof.
  intros Hunknown Hknown Hwrong. unfold Accounts.login, Accounts.verify_password.
  rewrite fetch_by_email_absent by assumption.
  rewrite Hknown, Hwrong. split; reflexivity.
Qed.

Lemma login_failures_alike_witness :
  Accounts.login Accounts.plain_verify Accounts.one_token
    (Accounts.mkUserLogin "eve@example.org" "s3cret") 5
    [Accounts.mkUserRow 1 "ada@example.org" "ada" "s3cret" None None None]
  = inr (Accounts.Http 401 "Invalid credentials") /\
  Accounts.login Accounts.plain_verify Accounts.one_token
    (Accounts.mkUserLogin "ada@example.org" "guess") 6
    [Accounts.mkUserRow 1 "ada@example.org" "ada" "s3cret" None None None]
  = Accounts.login Accounts.plain_verify Accounts.one_token
      (Accounts.mkUserLogin "eve@example.org" "s3cret") 5
      [Accounts.mkUserRow 1 "ada@example.org" "ada" "s3cret" None None None].
Proof.
  apply (login_failures_alike Accounts.plain_verify Accounts.one_token
           [Accounts.mkUserRow 1 "ada@example.org" "ada" "s3cret" None None None]
           (Accounts.mkUserLogin "eve@example.org" "s3cret")
           (Accounts.mkUserLogin "ada@example.org" "guess")
           (Accounts.mkUserRow 1 "ada@example.org" "ada" "s3cret" None None None)
           5 6).
  - simpl. intros [H|[]]. discriminate H.
  - reflexivity.
  - reflexivity.
Defined.

(** X5. After a registration with a free email, [get_user] on the key
    the registration returned gives back the email, name and
    organisation that were registered, and nothing of the password; a
    key that no row has is answered 404. *)
Theorem register_then_get_user
    (pwd_hash : string -> string -> string)
    (jwt_encode : dict Accounts.claim -> string) (isoformat : Z -> string)
    (user : Accounts.UserCreate) (amb : Accounts.ambient)
    (db : Accounts.table) :
  ~ In (Accounts.new_email user) (map Accounts.email db) ->
  let run := Accounts.register pwd_hash jwt_encode user amb db in
  exists access_token user_id profile,
    fst run = inl (Accounts.token_reply access_token user_id) /\
    Accounts.get_user isoformat user_id (snd run) = inl profile /\
    subscript profile "id" = inl (JInt user_id) /\
    subscript profile "email" = inl (JStr (Accounts.new_email user)) /\
    subscript profile "username" = inl (JStr (Accounts.new_username user)) /\
    subscript profile "organization"
      = inl (match Accounts.new_organization user with
             | Some o => JStr o
             | None => JNull
             end) /\
    subscript profile "hashed_password" = inr (KeyError "hashed_password") /\
    (forall other,
        ~ In other (map Accounts.id (snd run)) ->
        Accounts.get_user isoformat other (snd run)
        = inr (Accounts.Http 404 "User not found")).
Proof.
  intros Hfree. cbv zeta. rewrite register_new by assumption. cbn [fst snd].
  eexists _, (Accounts.next_id db), _. split; [reflexivity|].
  unfold Accounts.get_user.
  rewrite fetch_by_id_last by (apply next_id_fresh || reflexivity).
  split; [reflexivity|]. repeat (split; [reflexivity|]).
  intros other Hother. now rewrite fetch_by_id_absent.
Qed.

Lemma register_then_get_user_witness :
  ~ In (Accounts.new_email Accounts.ada) (map Accounts.email []) /\
  exists access_token user_id profile,
    fst (Accounts.register Accounts.plain_hash Accounts.one_token
           Accounts.ada Accounts.noon [])
    = inl (Accounts.token_reply access_token user_id) /\
    Accounts.get_user (fun _ => "2023-11-14T22:13:20") user_id
      (snd (Accounts.register Accounts.plain_hash Accounts.one_token
              Accounts.ada Accounts.noon []))
    = inl profile /\
    subscript profile "id" = inl (JInt user_id) /\
    subscript profile "email" = inl (JStr "ada@example.org") /\
    subscript profile "username" = inl (JStr "ada") /\
    subscript profile "organization" = inl (JStr "Analytical Engines") /\
    subscript profile "hashed_password" = inr (KeyError "hashed_password") /\
    (forall other,
        ~ In other
            (map Accounts.id
               (snd (Accounts.register Accounts.plain_hash Accounts.one_token
                       Accounts.ada Accounts.noon []))) ->
        Accounts.get_user (fun _ => "2023-11-14T22:13:20") other
          (snd (Accounts.register Accounts.plain_hash Accounts.one_token
                  Accounts.ada Accounts.noon []))
        = inr (Accounts.Http 404 "User not found")).
Proof.
  assert (Hfree : ~ In (Accounts.new_email Accounts.ada)
                       (map Accounts.email []))
    by (simpl; tauto).
  split; [exact Hfree|].
  exact (register_then_get_user Accounts.plain_hash Accounts.one_token
           (fun _ => "2023-11-14T22:13:20") Accounts.ada Accounts.noon []
           Hfree).
Defined.

(** X6. The token a registration returns carries the claims the
    [/verify] handler reads: when decoding it gives back the dict that
    was encoded, [verify_token] answers with the registered key as
    [user_id] and the registered email as [email]. *)
Theorem registered_token_verifies
    (pwd_hash : string -> string -> string)
    (jwt_encode : dict Accounts.claim -> string)
    (jwt_decode : string -> AuthService.decoded)
    (user : Accounts.UserCreate) (amb : Accounts.ambient)
    (db : Accounts.table) :
  ~ In (Accounts.new_email user) (map Accounts.email db) ->
  let data :=
    dict_set "exp"
      (Accounts.CDatetime
         (Accounts.utcnow amb
          + Accounts.minutes Accounts.ACCESS_TOKEN_EXPIRE_MINUTES))
      (Accounts.token_data (Accounts.new_email user) (Accounts.next_id db)) in
  jwt_decode (jwt_encode data)
    = AuthService.Payload (Accounts.decoded_claims data) ->
  exists access_token user_id,
    fst (Accounts.register pwd_hash jwt_encode user amb db)
    = inl (Accounts.token_reply access_token user_id) /\
    AuthService.verify_token jwt_decode access_token
    = inl (JObj [("user_id", JInt user_id);
                 ("email", JStr (Accounts.new_email user))]).
Proof.
  intros Hfree data Hdecode. rewrite register_new by assumption. cbn [fst].
  eexists _, (Accounts.next_id db). split; [reflexivity|].
  unfold AuthService.verify_token, Accounts.create_access_token.
  fold data. rewrite Hdecode. reflexivity.
Qed.

Lemma registered_token_verifies_witness :
  exists access_token user_id,
    fst (Accounts.register Accounts.plain_hash Accounts.one_token
           Accounts.ada Accounts.noon [])
    = inl (Accounts.token_reply access_token user_id) /\
    AuthService.verify_token
      (fun _ => AuthService.Payload
                  [("sub", JStr "ada@example.org"); ("user_id", JInt 1);
                   ("exp", JInt 1700001800)])
      access_token
    = inl (JObj [("user_id", JInt user_id); ("email", JStr "ada@example.org")]).
Proof.
  apply (registered_token_verifies Accounts.plain_hash Accounts.one_token
           (fun _ => AuthService.Payload
                       [("sub", JStr "ada@example.org"); ("user_id", JInt 1);
                        ("exp", JInt 1700001800)])
           Accounts.ada Accounts.noon []).
  - simpl. tauto.
  - reflexivity.
Defined.

(** X7. [create_access_token] treats a zero lifetime like no lifetime:
    the token then expires 30 minutes after it was made, not at once.
    Whatever the lifetime, the dict that is encoded has the expiry under
    [exp], replacing an [exp] the caller put there, and every other
    claim as the caller gave it. *)
Theorem access_token_claims
    (jwt_encode : dict Accounts.claim -> string)
    (data : dict Accounts.claim) (expires_delta : option Z) (now : Z) :
  Accounts.create_access_token jwt_encode data (Some 0%Z) now
    = Accounts.create_access_token jwt_encode data None now /\
  exists claims expire,
    Accounts.create_access_token jwt_encode data expires_delta now
      = jwt_encode claims /\
    dict_get "exp" claims = Some (Accounts.CDatetime expire) /\
    (expires_delta = None \/ expires_delta = Some 0%Z ->
     expire = (now + 1800000000)%Z) /\
    (forall delta, expires_delta = Some delta -> delta <> 0%Z ->
                   expire = (now + delta)%Z) /\
    (forall k, k <> "exp" -> dict_get k claims = dict_get k data).
Proof.
  split; [reflexivity|].
  unfold Accounts.create_access_token.
  eexists _, _. split; [reflexivity|].
  split; [apply dict_get_set_same|]. split; [|split].
  - intros [->| ->]; reflexivity.
  - intros delta -> Hne. apply Z.eqb_neq in Hne. now rewrite Hne.
  - intros k Hk. apply dict_get_set_other. congruence.
Qed.

(* ================================================================== *)
(** ** More on the gateway *)
(* ================================================================== *)

Lemma dict_set_new {V} (k : string) (v : V) (d : dict V) :
  ~ In k (keys d) -> dict_set k v d = (d ++ [(k, v)])%list.
Proof.
  unfold keys. induction d as [|[k' v'] d IH]; simpl; intros Hn; auto.
  destruct (String.eqb_spec k k') as [->|Hk].
  - exfalso. auto.
  - f_equal. apply IH. tauto.
Qed.

Lemma fold_set_fresh {V} (items : dict V) : forall acc : dict V,
  NoDup (keys acc ++ keys items)%list ->
  fold_left (fun acc kv => dict_set (fst kv) (snd kv) acc) items acc
  = (acc ++ items)%list.
Proof.
  induction items as [|[k v] items IH]; intros acc Hnd; simpl.
  - now rewrite app_nil_r.
  - simpl in Hnd.
    assert (Hk : ~ In k (keys acc)).
    { apply NoDup_remove_2 in Hnd. intros Hin. apply Hnd, in_or_app. auto. }
    rewrite dict_set_new by assumption.
    rewrite IH.
    + now rewrite <- app_assoc.
    + unfold keys in *. rewrite map_app, <- app_assoc. exact Hnd.
Qed.

(** A dict display over items with distinct keys stores them as they
    are. *)
Lemma dict_of_items_distinct {V} (items : dict V) :
  NoDup (keys items) -> dict_of_items items = items.
Proof.
  intros Hnd. unfold dict_of_items. now rewrite fold_set_fresh.
Qed.

Lemma probe_all_stateless (answer : request -> N * outcome) items :
  forall health_status w,
    fst (Gateway.probe_all (fun _ rq => answer rq) items health_status w)
    = inl (fold_left
             (fun report item =>
                dict_set (fst item)
                  (classify (snd (answer (health_request (snd item)))))
                  report)
             items health_status).
Proof.
  induction items as [|[name url] rest IH]; intros hs w.
  - reflexivity.
  - cbn [Gateway.probe_all]. unfold bind at 1. rewrite probe_run.
    rewrite IH. reflexivity.
Qed.

(** X8. The health check keeps no state: when the backends' answers do
    not depend on the calls made before, the report is the same from
    every starting state, so a check repeated right after another gives
    the same classifications. *)
Theorem health_check_repeatable (environ : string -> option string)
                                (answer : request -> N * outcome)
                                (w w' : world) :
  let net : network := fun _ rq => answer rq in
  fst (Gateway.health_check environ net w)
    = fst (Gateway.health_check environ net w') /\
  fst (Gateway.health_check environ net
         (snd (Gateway.health_check environ net w)))
    = fst (Gateway.health_check environ net w).
Proof.
  cbv zeta. unfold Gateway.health_check.
  rewrite !probe_all_stateless. split; reflexivity.
Qed.

(** X9. The service list of [GET /] and the health report name the
    same services, in the same order, whatever the environment sets:
    the report's keys are [gateway] followed by the listed names. *)
Theorem root_lists_the_probed_services (environ : string -> option string)
                                       (net : network) (w : world) :
  exists report names,
    fst (Gateway.health_check environ net w) = inl report /\
    subscript (Gateway.root environ) "services" = inl (JArr (map JStr names)) /\
    keys report = "gateway" :: names.
Proof.
  assert (Hnd : NoDup (keys [("gateway", "healthy")]
                         ++ map fst (Gateway.SERVICES environ))%list).
  { cbn. repeat (constructor; [cbn; intuition discriminate|]). constructor. }
  destruct (probe_all_run net (Gateway.SERVICES environ)
              [("gateway", "healthy")] w Hnd)
    as (report & calls & t_end & Hrun & Hkeys & _).
  exists report, (keys (Gateway.SERVICES environ)).
  unfold Gateway.health_check. rewrite Hrun.
  split; [reflexivity|]. split; [reflexivity|]. exact Hkeys.
Qed.

(** X10. Create-project forwards the caller's project fields as they
    are: for a payload with distinct keys, the body sent to the projects
    backend is the payload with [created_by] set to the verified id
    (in place when the payload had the key, at the end otherwise), every
    other field keeping its value and its position. *)
Theorem create_project_keeps_payload
    (environ : string -> option string) (repr_other : json -> string)
    (net : network) (project_data : dict json) (user_data : json) (n : Z)
    (w : world) :
  NoDup (keys project_data) ->
  subscript user_data "user_id" = inl (JInt n) ->
  exists t rq body,
    sent (snd (Gateway.create_project environ repr_other net project_data
                 user_data w))
    = (sent w ++ [(t, rq)])%list /\
    req_json rq = Some (JObj body) /\
    body = dict_set "created_by" (JInt n) project_data /\
    (forall k, k <> "created_by" -> dict_get k body = dict_get k project_data) /\
    (~ In "created_by" (keys project_data) ->
     body = (project_data ++ [("created_by", JInt n)])%list).
Proof.
  intros Hnd Hu.
  rewrite (create_project_run environ repr_other net project_data user_data
             (JInt n) w Hu).
  exists (now w), (create_request environ repr_other project_data (JInt n)),
    (dict_set "created_by" (JInt n) project_data).
  split; [reflexivity|]. split.
  - cbn [create_request req_json]. rewrite dict_of_items_snoc.
    now rewrite dict_of_items_distinct.
  - split; [reflexivity|]. split.
    + intros k Hk. apply dict_get_set_other. congruence.
    + intros Hfree. now apply dict_set_new.
Qed.

Lemma create_project_keeps_payload_witness :
  NoDup (keys [("name", JStr "Reforestation"); ("created_by", JInt 7);
               ("location", JStr "Tartu")]) /\
  subscript identity_42 "user_id" = inl (JInt 42) /\
  exists t rq body,
    sent (snd (Gateway.create_project no_environ no_repr all_hang
                 [("name", JStr "Reforestation"); ("created_by", JInt 7);
                  ("location", JStr "Tartu")]
                 identity_42 idle))
    = [(t, rq)] /\
    req_json rq = Some (JObj body) /\
    body = [("name", JStr "Reforestation"); ("created_by", JInt 42);
            ("location", JStr "Tartu")] /\
    (forall k, k <> "created_by" ->
       dict_get k body
       = dict_get k [("name", JStr "Reforestation"); ("created_by", JInt 7);
                     ("location", JStr "Tartu")]) /\
    (~ In "created_by"
         (keys [("name", JStr "Reforestation"); ("created_by", JInt 7);
                ("location", JStr "Tartu")]) ->
     body = [("name", JStr "Reforestation"); ("created_by", JInt 7);
             ("location", JStr "Tartu"); ("created_by", JInt 42)]).
Proof.
  assert (Hnd : NoDup (keys [("name", JStr "Reforestation");
                             ("created_by", JInt 7);
                             ("location", JStr "Tartu")])).
  { cbn. repeat (constructor; [cbn; intuition discriminate|]). constructor. }
  split; [exact Hnd|]. split; [reflexivity|].
  exact (create_project_keeps_payload no_environ no_repr all_hang
           [("name", JStr "Reforestation"); ("created_by", JInt 7);
            ("location", JStr "Tartu")]
           identity_42 42%Z idle Hnd eq_refl).
Defined.

Section Routes.
Variable environ : string -> option string.
Variable repr_other : json -> string.
Variable status : Z.
Variable net : network.

(** A protected route whose credential the auth backend accepts: the
    endpoint runs on the world the verification left, with the body of
    the auth backend's answer as its identity. *)
Lemma verified_then (A : Type) (endpoint : json -> io A)
      authorization creds r identity w :
  HTTPBearer status authorization = inl creds ->
  snd (net (sent w) (verify_request environ (credentials creds)))
    = Responded r ->
  status_code r = 200%Z ->
  body_json r = Some identity ->
  bind (Gateway.depends_verify_token environ status net authorization)
       endpoint w
  = endpoint identity
      (after net w (verify_request environ (credentials creds))).
Proof.
  intros Hc Hout H200 Hbody.
  unfold Gateway.depends_verify_token, bind, lift.
  rewrite Hc, verify_token_run, Hout, H200, Hbody. reflexivity.
Qed.

(** The calls a protected route issues after its first: none when the
    verification fails, the endpoint's otherwise. *)
Lemma protected_route_calls (A : Type) (endpoint : json -> io A)
      (P : N * request -> Prop) authorization w :
  (forall creds, HTTPBearer status authorization = inl creds ->
                 P (now w, verify_request environ (credentials creds))) ->
  (forall identity w1,
      exists calls, sent (snd (endpoint identity w1)) = (sent w1 ++ calls)%list /\
                    Forall P calls) ->
  exists calls,
    sent (snd (bind (Gateway.depends_verify_token environ status net
                       authorization) endpoint w))
    = (sent w ++ calls)%list /\
    Forall P calls.
Proof.
  intros Hverify Hendpoint.
  unfold Gateway.depends_verify_token, bind, lift.
  destruct (HTTPBearer status authorization) as [creds|e] eqn:Hc.
  - specialize (Hverify creds eq_refl).
    rewrite verify_token_run.
    set (vrq := verify_request environ (credentials creds)) in *.
    destruct (match snd (net (sent w) vrq) with
              | Responded r =>
                  if (status_code r =? 200)%Z
                  then match body_json r with
                       | Some v => inl v
                       | None => inr auth_unavailable
                       end
                  else inr auth_unavailable
              | Failed _ => inr auth_unavailable
              end) as [identity|e].
    + destruct (Hendpoint identity (after net w vrq)) as (calls & Hs & HP).
      exists ((now w, vrq) :: calls). rewrite Hs. cbn [after sent].
      rewrite <- app_assoc. split; [reflexivity|]. now constructor.
    + exists [(now w, vrq)]. split; [reflexivity|]. now constructor.
  - exists []. cbn. now rewrite app_nil_r.
Qed.

Lemma create_project_calls project_data identity w1 :
  exists calls,
    sent (snd (Gateway.create_project environ repr_other net project_data
                 identity w1)) = (sent w1 ++ calls)%list /\
    Forall (fun c => carries_no_credential (snd c)) calls.
Proof.
  destruct (subscript identity "user_id") as [u|e] eqn:Hu.
  - rewrite (create_project_run environ repr_other net project_data identity
               u w1 Hu).
    eexists [(_, _)]. split; [reflexivity|].
    repeat constructor.
  - rewrite (create_project_raises environ repr_other net project_data
               identity e w1 Hu).
    exists []. cbn. now rewrite app_nil_r.
Qed.

Lemma get_dashboard_calls identity w1 :
  exists calls,
    sent (snd (Gateway.get_dashboard environ repr_other net identity w1))
    = (sent w1 ++ calls)%list /\
    Forall (fun c => carries_no_credential (snd c)) calls.
Proof.
  destruct (subscript identity "user_id") as [u|e] eqn:Hu.
  - rewrite (get_dashboard_run environ repr_other net identity u w1 Hu).
    cbv zeta.
    destruct (snd (net (sent w1) _)) as [pr|e].
    + eexists [(_, _); (_, _)]. cbn [snd after sent].
      rewrite <- app_assoc. split; [reflexivity|]. repeat constructor.
    + eexists [(_, _)]. split; [reflexivity|]. repeat constructor.
  - rewrite (get_dashboard_raises environ repr_other net identity e w1 Hu).
    exists []. cbn. now rewrite app_nil_r.
Qed.

End Routes.

(** X11. The bearer credential goes to the auth backend only.  On both
    protected routes, whatever the request and whatever the backends
    answer, every call the gateway issues is either the verification
    call built from the request's own credential or carries no
    [Authorization] header at all. *)
Theorem credential_reaches_auth_backend_only
    (environ : string -> option string) (repr_other : json -> string)
    (status : Z) (net : network) (authorization : option string)
    (project_data : dict json) (w : world) :
  let allowed (c : N * request) :=
    carries_no_credential (snd c) \/
    exists creds, HTTPBearer status authorization = inl creds /\
                  snd c = verify_request environ (credentials creds) in
  (exists calls,
      sent (snd (Gateway.post_api_projects environ repr_other status net
                   authorization project_data w))
      = (sent w ++ calls)%list /\
      Forall allowed calls) /\
  (exists calls,
      sent (snd (Gateway.get_api_dashboard environ repr_other status net
                   authorization w))
      = (sent w ++ calls)%list /\
      Forall allowed calls).
Proof.
  cbv zeta. split.
  - apply (protected_route_calls environ status net).
    + intros creds Hc. right. eauto.
    + intros identity w1.
      destruct (create_project_calls environ repr_other net project_data
                  identity w1) as (calls & Hs & HP).
      exists calls. split; [exact Hs|].
      eapply Forall_impl; [|exact HP]. intros c Hc. now left.
  - apply (protected_route_calls environ status net).
    + intros creds Hc. right. eauto.
    + intros identity w1.
      destruct (get_dashboard_calls environ repr_other net identity w1)
        as (calls & Hs & HP).
      exists calls. split; [exact Hs|].
      eapply Forall_impl; [|exact HP]. intros c Hc. now left.
Qed.

(** X12. [POST /api/projects], from the request to the reply.  When the
    header is a bearer credential and the auth backend answers the
    verification with 200 and an identity whose [user_id] is the number
    [n], the gateway issues two calls, the verification and then the
    create call carrying [n], the second when the first has ended; and
    it answers its client with the projects backend's JSON body. *)
Theorem post_api_projects_verified
    (environ : string -> option string) (repr_other : json -> string)
    (status : Z) (net : network) (authorization : option string)
    (creds : HTTPAuthorizationCredentials) (project_data : dict json)
    (r : response) (identity : json) (n : Z) (w : world) :
  HTTPBearer status authorization = inl creds ->
  snd (net (sent w) (verify_request environ (credentials creds)))
    = Responded r ->
  status_code r = 200%Z ->
  body_json r = Some identity ->
  subscript identity "user_id" = inl (JInt n) ->
  let v_rq := verify_request environ (credentials creds) in
  let c_rq := create_request environ repr_other project_data (JInt n) in
  let run := Gateway.post_api_projects environ repr_other status net
               authorization project_data w in
  sent (snd run)
  = (sent w ++ [(now w, v_rq);
                ((now w + fst (net (sent w) v_rq))%N, c_rq)])%list /\
  (forall r' v, snd (net (sent w ++ [(now w, v_rq)])%list c_rq) = Responded r' ->
                body_json r' = Some v ->
                respond (fst run) = mkReply 200 (Some v)).
Proof.
  intros Hc Hout H200 Hbody Hu. cbv zeta.
  unfold Gateway.post_api_projects.
  rewrite (verified_then environ status net json
             (fun user_data =>
                Gateway.create_project environ repr_other net project_data
                  user_data)
             authorization creds r identity w Hc Hout H200 Hbody).
  cbv beta.
  rewrite (create_project_run environ repr_other net project_data identity
             (JInt n) _ Hu).
  cbn [fst snd after sent now]. rewrite <- app_assoc. split; [reflexivity|].
  intros r' v Hr' Hv. now rewrite Hr', Hv.
Qed.

Lemma post_api_projects_verified_witness :
  map snd
    (sent (snd (Gateway.post_api_projects no_environ no_repr 403
                  (fun _ _ => ok identity_42) (Some "Bearer abc")
                  [("name", JStr "Reforestation")] idle)))
  = [verify_request no_environ "abc";
     create_request no_environ no_repr [("name", JStr "Reforestation")]
       (JInt 42)] /\
  respond (fst (Gateway.post_api_projects no_environ no_repr 403
                  (fun _ _ => ok identity_42) (Some "Bearer abc")
                  [("name", JStr "Reforestation")] idle))
  = mkReply 200 (Some identity_42).
Proof.
  destruct (post_api_projects_verified no_environ no_repr 403
              (fun _ _ => ok identity_42) (Some "Bearer abc")
              (mkCredentials "Bearer" "abc") [("name", JStr "Reforestation")]
              (mkResponse 200 (Some identity_42)) identity_42 42 idle
              eq_refl eq_refl eq_refl eq_refl eq_refl) as [Hsent Hreply].
  split.
  - rewrite Hsent. reflexivity.
  - apply (Hreply (mkResponse 200 (Some identity_42))); reflexivity.
Defined.

(** X13. [GET /api/dashboard], from the request to the reply.  With an
    accepted credential and an identity whose [user_id] is [n], the
    gateway issues three calls in this order, each when the one before
    has ended with a response: the verification, the projects of user
    [n], the footprint of user [n]; both data calls carry the id the
    auth backend returned for this request. *)
Theorem get_api_dashboard_verified
    (environ : string -> option string) (repr_other : json -> string)
    (status : Z) (net : network) (authorization : option string)
    (creds : HTTPAuthorizationCredentials)
    (r pr : response) (identity : json) (n : Z) (w : world) :
  HTTPBearer status authorization = inl creds ->
  snd (net (sent w) (verify_request environ (credentials creds)))
    = Responded r ->
  status_code r = 200%Z ->
  body_json r = Some identity ->
  subscript identity "user_id" = inl (JInt n) ->
  let v_rq := verify_request environ (credentials creds) in
  let p_rq := projects_request environ repr_other (JInt n) in
  let c_rq := carbon_request environ repr_other (JInt n) in
  snd (net (sent w ++ [(now w, v_rq)])%list p_rq) = Responded pr ->
  exists t_p t_c,
    sent (snd (Gateway.get_api_dashboard environ repr_other status net
                 authorization w))
    = (sent w ++ [(now w, v_rq); (t_p, p_rq); (t_c, c_rq)])%list /\
    t_p = (now w + fst (net (sent w) v_rq))%N /\
    t_c = (t_p + fst (net (sent w ++ [(now w, v_rq)])%list p_rq))%N /\
    req_url p_rq
    = (Gateway.getenv environ "PROJECT_SERVICE_URL" "http://project-service:8002"
         ++ "/projects/user/" ++ NilZero.string_of_int (Z.to_int n)) /\
    req_url c_rq
    = (Gateway.getenv environ "CARBON_SERVICE_URL" "http://carbon-service:8003"
         ++ "/footprint/" ++ NilZero.string_of_int (Z.to_int n)).
Proof.
  intros Hc Hout H200 Hbody Hu v_rq p_rq c_rq Hp.
  unfold Gateway.get_api_dashboard.
  rewrite (verified_then environ status net json
             (fun user_data =>
                Gateway.get_dashboard environ repr_other net user_data)
             authorization creds r identity w Hc Hout H200 Hbody).
  cbv beta.
  rewrite (get_dashboard_run environ repr_other net identity (JInt n) _ Hu).
  cbv zeta. fold v_rq p_rq c_rq. cbn [after sent now] in *.
  rewrite Hp. cbn [snd]. unfold after. cbn [sent now].
  rewrite <- !app_assoc. cbn [app].
  eexists _, _. repeat split.
Qed.

Lemma get_api_dashboard_verified_witness :
  exists t_p t_c,
    sent (snd (Gateway.get_api_dashboard no_environ no_repr 403
                 (fun _ _ => ok identity_42) (Some "Bearer abc") idle))
    = [(0%N, verify_request no_environ "abc");
       (t_p, projects_request no_environ no_repr (JInt 42));
       (t_c, carbon_request no_environ no_repr (JInt 42))] /\
    t_p = 10%N /\ t_c = (t_p + 10)%N /\
    req_url (projects_request no_environ no_repr (JInt 42))
    = "http://project-service:8002/projects/user/42" /\
    req_url (carbon_request no_environ no_repr (JInt 42))
    = "http://carbon-service:8003/footprint/42".
Proof.
  exact (get_api_dashboard_verified no_environ no_repr 403
           (fun _ _ => ok identity_42) (Some "Bearer abc")
           (mkCredentials "Bearer" "abc")
           (mkResponse 200 (Some identity_42))
           (mkResponse 200 (Some identity_42)) identity_42 42 idle
           eq_refl eq_refl eq_refl eq_refl eq_refl eq_refl).
Defined.

(* ================================================================== *)
(** ** The gateway in front of the project service *)
(* ================================================================== *)

Section ProjectServiceFacts.
Variable ProjectCreate : Type.
Variable validate : option json -> ProjectCreate + list json.
Variable int_of_text : string -> option Z.
Variable error_entry : string -> list string -> json.
Variable unquote : string -> string.
Variable handler : ProjectCreate -> Z -> reply.



End ProjectServiceFacts.




(* ================================================================== *)
(** ** The carbon service's recommendations *)
(* ================================================================== *)





(** Three rows, one of a category without a recommendation. *)
Example recommendations_run :
  CarbonService.get_recommendations 42
    [CarbonService.mkCategoryRow (Some "food") None 3;
     CarbonService.mkCategoryRow (Some "housing") None 1;
     CarbonService.mkCategoryRow (Some "transport") None 2]
  = inl (JObj [("user_id", JInt 42);
               ("recommendations",
                JArr (CarbonService.recommendation
                        (CarbonService.mkCategoryRow (Some "food") None 3)
                      ++ CarbonService.recommendation
                           (CarbonService.mkCategoryRow (Some "transport") None 2)));
               ("total_potential_reduction", JInt 150)]).
Proof. reflexivity. Qed.

(** Two registrations with one email: the second is refused and the
    table keeps its one row, with key 1. *)
Example register_twice_run :
  let first := Accounts.register Accounts.plain_hash Accounts.one_token
                 Accounts.ada Accounts.noon [] in
  let second := Accounts.register Accounts.plain_hash Accounts.one_token
                  Accounts.ada Accounts.noon (snd first) in
  fst first = inl (Accounts.token_reply "token-1" 1) /\
  Accounts.reply_of (fst second)
    = mkReply 400 (Some (JObj [("detail", JStr "Email already registered")])) /\
  snd second
    = [Accounts.mkUserRow 1 "ada@example.org" "ada" "s3cret"
         (Some "Analytical Engines") (Some 1700000000000000%Z) (Some true)].
Proof. repeat split. Qed.
